(** * LLM-Doc-QA: the request pipeline of the FastAPI backend

    A shallow embedding of [backend/prompt_templates.py],
    [backend/pdf_processor.py], [backend/gemini_client.py],
    [backend/models.py] and [backend/main.py], followed by the properties
    of the pipeline that the specification states.

    Python values are modelled as follows.
    - [str] is a list of Unicode code points ([list N]); [len] is the
      length of that list.
    - [int] is [Z]; the [float] produced by [/] is a binary64 value
      ([PrimFloat.float]).
    - [dict] with string keys is a [gmap].
    - A raised exception is the [Raise] branch of [result]; a call into a
      library outside the repository (pypdf, google.generativeai) is an
      oracle whose answer is an [attempt]. *)

From Stdlib Require Import ZArith List Ascii String Floats Uint63 Lia DecimalString.
From stdpp Require Import gmap strings list fin_maps.

Set Default Proof Using "Type".

Abbreviation str := (list N) (only parsing).

(* ===================================================================== *)
(** ** Python strings *)
(* ===================================================================== *)

Module PyStr.

(** A literal of the source, given by its ASCII text. *)
Definition lit (s : string) : str := map N_of_ascii (list_ascii_of_string s).

(** [len(s)] *)
Definition len (s : str) : Z := Z.of_nat (length s).

(** [bool(s)]: a string is true when it is not empty. *)
Definition truthy (s : str) : bool :=
  match s with [] => false | _ :: _ => true end.

(** The code points that [str.strip()] removes (those for which
    [str.isspace] holds). *)
Definition isspace (c : N) : bool :=
  ((9 <=? c) && (c <=? 13) || (28 <=? c) && (c <=? 32) ||
   (c =? 133) || (c =? 160) || (c =? 5760) ||
   (8192 <=? c) && (c <=? 8202) || (c =? 8232) || (c =? 8233) ||
   (c =? 8239) || (c =? 8287) || (c =? 12288))%N.

Fixpoint lstrip (s : str) : str :=
  match s with
  | [] => []
  | c :: s' => if isspace c then lstrip s' else s
  end.

Definition rstrip (s : str) : str := rev (lstrip (rev s)).

(** [s.strip()] *)
Definition strip (s : str) : str := rstrip (lstrip s).

(** [s.startswith(p)] *)
Fixpoint startswith (p s : str) : bool :=
  match p, s with
  | [], _ => true
  | _ :: _, [] => false
  | a :: p', b :: s' => (a =? b)%N && startswith p' s'
  end.

(** [s.endswith(p)] *)
Definition endswith (s p : str) : bool := startswith (rev p) (rev s).

(** [needle in hay] *)
Fixpoint contains (needle hay : str) : bool :=
  startswith needle hay ||
  match hay with
  | [] => false
  | _ :: hay' => contains needle hay'
  end.

(** [sep.join(l)] *)
Fixpoint join (sep : str) (l : list str) : str :=
  match l with
  | [] => []
  | [x] => x
  | x :: l' => x ++ sep ++ join sep l'
  end.

(** [str(n)] for an [int]. *)
Definition str_of_int (n : Z) : str := lit (NilZero.string_of_int (Z.to_int n)).

(** [s.lower()].  ASCII letters are mapped by the fixed rule; the case
    mapping of every other code point comes from the interpreter's
    Unicode tables, a parameter here. *)
Definition lower_code_point (unicode_lower : N -> str) (c : N) : str :=
  if (c <? 128)%N
  then [if (65 <=? c)%N && (c <=? 90)%N then (c + 32)%N else c]
  else unicode_lower c.

Definition lower (unicode_lower : N -> str) (s : str) : str :=
  flat_map (lower_code_point unicode_lower) s.

End PyStr.
Import PyStr.

(* ===================================================================== *)
(** ** Exceptions and library calls *)
(* ===================================================================== *)

(** The exception classes the backend distinguishes.  [Exception] stands
    for any other subclass of [Exception]; its argument is [str(e)]. *)
Inductive exn :=
| PDFProcessingError (msg : str)
| HTTPException (status_code : Z) (detail : str)
| Exception (msg : str).

(** [str(e)] *)
Definition exn_str (e : exn) : str :=
  match e with
  | PDFProcessingError msg => msg
  | HTTPException sc detail => str_of_int sc ++ lit ": " ++ detail
  | Exception msg => msg
  end.

Inductive result (A : Type) :=
| Ok (a : A)
| Raise (e : exn).
Arguments Ok {A} a.
Arguments Raise {A} e.

(** What a call into a library outside the repository does: it returns a
    value or raises an exception whose [str] is [msg]. *)
Inductive attempt (A : Type) :=
| Returns (a : A)
| Raises (msg : str).
Arguments Returns {A} a.
Arguments Raises {A} msg.

(** The values stored in the metadata dictionary. *)
Inductive pyval :=
| PyNone
| PyStr (s : str)
| PyInt (n : Z).

(* ===================================================================== *)
(** ** jinja2.Template, as far as the templates of the backend use it *)
(* ===================================================================== *)

Module Jinja.

(** A parsed template: literal data, [{{ name }}], and
    [{% if name %} ... {% else %} ... {% endif %}]. *)
#[warnings="-register-all"]
Inductive node :=
| Data (s : str)
| Var (name : string)
| If (cond : string) (then_ else_ : list node).

Inductive value :=
| VNone
| VStr (s : str)
| VInt (n : Z)
| VBool (b : bool).

(** The test of [{% if name %}]: Python truthiness; an undefined name
    is false. *)
Definition test (v : option value) : bool :=
  match v with
  | None | Some VNone => false
  | Some (VStr s) => truthy s
  | Some (VInt n) => negb (n =? 0)%Z
  | Some (VBool b) => b
  end.

(** The text of [{{ name }}]: [str(value)]; an undefined name renders
    as the empty string. *)
Definition output (v : option value) : str :=
  match v with
  | None => []
  | Some VNone => lit "None"
  | Some (VStr s) => s
  | Some (VInt n) => str_of_int n
  | Some (VBool true) => lit "True"
  | Some (VBool false) => lit "False"
  end.

Fixpoint render_node (ctx : gmap string value) (n : node) : str :=
  match n with
  | Data s => s
  | Var x => output (ctx !! x)
  | If c t e =>
      if test (ctx !! c)
      then concat (map (render_node ctx) t)
      else concat (map (render_node ctx) e)
  end.

(** [Template(source).render(...)] with the keyword arguments [ctx] *)
Definition render (template : list node) (ctx : gmap string value) : str :=
  concat (map (render_node ctx) template).

End Jinja.
Import Jinja.

(* ===================================================================== *)
(** ** backend/prompt_templates.py *)
(* ===================================================================== *)

Module PromptTemplates.

(** An empty line of a template. *)
Definition blank : string := EmptyString.

(** The lines of a template, joined by a newline. *)
Definition lines (l : list string) : str := join [10%N] (map lit l).

(** The body of [{% if max_length %}] in [concise] and [detailed]. *)
Definition keep_block : list node :=
  [ Data (lines [blank; "- Keep the summary to approximately "]);
    Var "max_length";
    Data (lines [" words or less"; blank]) ].

(** The body of [{% if max_length %}] in [bullet_points]. *)
Definition limit_block : list node :=
  [ Data (lines [blank; "- Limit to approximately "]);
    Var "max_length";
    Data (lines [" words total across all bullet points"; blank]) ].

Definition concise : list node :=
  [ Data (lines
      [ blank;
        "You are an expert text summarizer. Your task is to create a concise, accurate summary of the provided text.";
        blank;
        "Instructions:";
        "- Focus on the main ideas and key points";
        "- Maintain the original meaning and context";
        "- Use clear, professional language";
        "- Avoid unnecessary details or repetition";
        blank ]);
    If "max_length" keep_block [];
    Data (lines [blank; blank; "Text to summarize:"; blank]);
    Var "text";
    Data (lines [blank; blank; "Summary:"]) ].

Definition detailed : list node :=
  [ Data (lines
      [ blank;
        "You are an expert text summarizer. Your task is to create a comprehensive, detailed summary of the provided text.";
        blank;
        "Instructions:";
        "- Include all major points and important details";
        "- Organize information logically";
        "- Maintain the structure and flow of the original text";
        "- Use clear, professional language";
        "- Include relevant examples or data points mentioned";
        blank ]);
    If "max_length" keep_block [];
    Data (lines [blank; blank; "Text to summarize:"; blank]);
    Var "text";
    Data (lines [blank; blank; "Detailed Summary:"]) ].

(** The last line of the source is the three code points U+00E2, U+20AC,
    U+00A2. *)
Definition bullet_points : list node :=
  [ Data (lines
      [ blank;
        "You are an expert text summarizer. Your task is to create a bullet-point summary of the provided text.";
        blank;
        "Instructions:";
        "- Extract key points and present them as bullet points";
        "- Use clear, concise language for each point";
        "- Organize points logically (chronologically or by importance)";
        "- Each bullet point should be self-contained and meaningful";
        blank ]);
    If "max_length" limit_block [];
    Data (lines [blank; blank; "Text to summarize:"; blank]);
    Var "text";
    Data (lines [blank; blank; "Bullet Point Summary:"; blank] ++ [226%N; 8364%N; 162%N]) ].

Definition SUMMARIZATION_TEMPLATES : gmap (list N) (list node) :=
  <[lit "concise" := concise]>
    (<[lit "detailed" := detailed]>
       (<[lit "bullet_points" := bullet_points]> ∅)).

Definition RAG_TEMPLATE : list node :=
  [ Data (lines
      [ blank;
        "You are an AI assistant specialized in answering questions based on provided context. Your task is to analyze the given context and provide accurate, helpful answers to user questions.";
        blank;
        "Instructions:";
        "- Base your answer strictly on the information provided in the context";
        "- If the context doesn't contain enough information to answer the question, clearly state this";
        "- Be precise and factual in your responses";
        "- Use direct quotes from the context when appropriate";
        "- If asked about something not covered in the context, explain that the information is not available";
        blank ]);
    If "include_sources"
       [ Data (lines
           [ blank;
             "- Include references to specific parts of the context that support your answer";
             blank ]) ]
       [];
    Data (lines [blank; blank; "Context:"; blank]);
    Var "context";
    Data (lines [blank; blank; "Question: "]);
    Var "question";
    Data (lines [blank; blank; blank]);
    If "include_sources"
       [ Data (lines
           [ blank;
             "Please provide your answer and include source references where applicable.";
             blank;
             "Answer:";
             blank ]) ]
       [ Data (lines [blank; "Answer:"; blank]) ] ].

(** [max_length: Optional[int]] as a template variable. *)
Definition int_or_none (o : option Z) : value :=
  match o with
  | Some n => VInt n
  | None => VNone
  end.

(** [SUMMARIZATION_TEMPLATES[style]]; a missing key raises [KeyError],
    whose [str] is the [repr] of the key. *)
Definition getitem (d : gmap (list N) (list node)) (key : str)
  : result (list node) :=
  match d !! key with
  | Some v => Ok v
  | None => Raise (Exception (lit "'" ++ key ++ lit "'"))
  end.

Definition get_summarization_prompt
  (text : str) (max_length : option Z) (style : str) : result str :=
  let style :=
    match SUMMARIZATION_TEMPLATES !! style with
    | None => lit "concise"            (* style not in SUMMARIZATION_TEMPLATES *)
    | Some _ => style
    end in
  match getitem SUMMARIZATION_TEMPLATES style with
  | Raise e => Raise e
  | Ok template =>
      Ok (render template
            (<["text" := VStr text]>
               (<["max_length" := int_or_none max_length]> ∅)))
  end.

Definition get_rag_prompt
  (question context : str) (include_sources : bool) : str :=
  render RAG_TEMPLATE
    (<["question" := VStr question]>
       (<["context" := VStr context]>
          (<["include_sources" := VBool include_sources]> ∅))).

Definition QA_TEMPLATE : list node :=
  [ Data (lines
      [ blank;
        "You are a helpful AI assistant. Please answer the following question to the best of your ability.";
        blank;
        "Question: " ]);
    Var "question";
    Data (lines [blank; blank; "Answer:"]) ].

Definition get_qa_prompt (question : str) : str :=
  render QA_TEMPLATE (<["question" := VStr question]> ∅).

End PromptTemplates.
Import PromptTemplates.

(* ===================================================================== *)
(** ** Effects: the calls that leave the process *)
(* ===================================================================== *)

(** The two calls into services outside the repository, in the order the
    process issues them. *)
Inductive event :=
| PdfOpen (pdf_bytes : list Byte.byte)
| GenerateContent (prompt : str) (temperature : float) (max_output_tokens : Z).

(** A computation that may issue such calls and may raise. *)
Definition M (A : Type) : Type := list event -> result A * list event.

Definition ret {A} (a : A) : M A := fun log => (Ok a, log).

Definition raise {A} (e : exn) : M A := fun log => (Raise e, log).

Definition bind {A B} (m : M A) (k : A -> M B) : M B :=
  fun log =>
    match m log with
    | (Ok a, log') => k a log'
    | (Raise e, log') => (Raise e, log')
    end.

(** [try: m except ... as e: handler e] *)
Definition try_except {A} (m : M A) (handler : exn -> M A) : M A :=
  fun log =>
    match m log with
    | (Ok a, log') => (Ok a, log')
    | (Raise e, log') => handler e log'
    end.

Definition emit (ev : event) : M unit := fun log => (Ok tt, log ++ [ev]).

Definition lift {A} (r : result A) : M A := fun log => (r, log).

Notation "x <- m ;; k" := (bind m (fun x => k))
  (at level 100, m at next level, right associativity).
Notation "m ;;; k" := (bind m (fun _ => k))
  (at level 100, right associativity).

(* ===================================================================== *)
(** ** backend/config.py *)
(* ===================================================================== *)

Module Config.

Record Settings := {
  debug : bool;
  max_tokens : Z;
  temperature : float;
}.

(** The values of the fields that have one in the class ([0.7] is the
    double written here in hexadecimal). *)
Definition defaults : Settings :=
  {| debug := true;
     max_tokens := 2048;
     temperature := 0x1.6666666666666p-1%float |}.

End Config.

(* ===================================================================== *)
(** ** backend/pdf_processor.py *)
(* ===================================================================== *)

(** The module is embedded as it runs with [PDF_LIBRARY == "pypdf"]; the
    PyPDF2 branches make the same calls under their older names. *)

Module PdfProcessor.

(** What pypdf gives for an opened document: [reader.metadata] (an
    access that may raise, and may be [None]) and [reader.pages], each
    page with the outcome of its [extract_text()]. *)
Record Reader := {
  metadata : attempt (option (gmap string (list N)));
  pages : attempt (list (attempt (list N)));
}.

(** [pdf_metadata.get(key)] *)
Definition get (d : gmap string (list N)) (key : string) : pyval :=
  match d !! key with
  | Some v => PyStr v
  | None => PyNone
  end.

(** [str(pdf_metadata.get(key, default))] with the empty string as default *)
Definition get_str (d : gmap string (list N)) (key : string) : pyval :=
  PyStr (default [] (d !! key)).

Definition _extract_metadata (reader : Reader) : gmap string pyval :=
  let metadata0 : gmap string pyval :=
    list_to_map
      [ ("title", PyNone); ("author", PyNone); ("subject", PyNone);
        ("creator", PyNone); ("producer", PyNone);
        ("creation_date", PyNone); ("modification_date", PyNone) ] in
  match metadata reader with
  | Raises _ => metadata0                       (* except Exception *)
  | Returns None => metadata0
  | Returns (Some pdf_metadata) =>
      if bool_decide (pdf_metadata = ∅) then metadata0
      else
        (* metadata.update({...}) *)
        list_to_map
          [ ("title", get pdf_metadata "/Title");
            ("author", get pdf_metadata "/Author");
            ("subject", get pdf_metadata "/Subject");
            ("creator", get pdf_metadata "/Creator");
            ("producer", get pdf_metadata "/Producer");
            ("creation_date", get_str pdf_metadata "/CreationDate");
            ("modification_date", get_str pdf_metadata "/ModDate") ]
        ∪ metadata0
  end.

(** [f"--- Page {page_num + 1} ---\n{text.strip()}"] *)
Definition page_block (page_num : nat) (text : str) : str :=
  lit "--- Page " ++ str_of_int (Z.of_nat page_num + 1) ++ lit " ---" ++
  [10%N] ++ strip text.

(** The loop [for page_num in range(num_pages)], from [page_num] on,
    over the pages not yet visited. *)
Fixpoint page_loop (page_num : nat) (rest : list (attempt (list N)))
  (text_content : list str) : list str :=
  match rest with
  | [] => text_content
  | Returns text :: rest' =>
      if truthy (strip text)
      then page_loop (S page_num) rest'
             (text_content ++ [page_block page_num text])
      else page_loop (S page_num) rest' text_content
  | Raises _ :: rest' =>                        (* except Exception: continue *)
      page_loop (S page_num) rest' text_content
  end.

Section WithLibrary.

(** [pypdf.PdfReader(io.BytesIO(pdf_bytes))] *)
Variable PdfReader : list Byte.byte -> attempt Reader.

(** The body of the [try] of [extract_text_from_bytes]. *)
Definition extract_text_body (pdf_bytes : list Byte.byte)
  : result (str * gmap string pyval) :=
  match PdfReader pdf_bytes with
  | Raises msg => Raise (Exception msg)
  | Returns reader =>
      let metadata := _extract_metadata reader in
      match pages reader with
      | Raises msg => Raise (Exception msg)
      | Returns reader_pages =>
          let num_pages := length reader_pages in
          let text_content := page_loop 0 reader_pages [] in
          match text_content with
          | [] =>
              Raise (PDFProcessingError
                       (lit "No text could be extracted from the PDF"))
          | _ :: _ =>
              let full_text := join [10%N; 10%N] text_content in
              let metadata :=
                <["pages_processed" := PyInt (Z.of_nat (length text_content))]>
                  metadata in
              let metadata :=
                <["total_pages" := PyInt (Z.of_nat num_pages)]> metadata in
              let metadata :=
                <["text_length" := PyInt (len full_text)]> metadata in
              Ok (full_text, metadata)
          end
      end
  end.

Definition extract_text_from_bytes (pdf_bytes : list Byte.byte)
  : M (str * gmap string pyval) :=
  try_except
    (emit (PdfOpen pdf_bytes) ;;; lift (extract_text_body pdf_bytes))
    (fun e =>
       match e with
       | PDFProcessingError _ => raise e
       | _ =>
           raise (PDFProcessingError
                    (lit "Failed to extract text from PDF: " ++ exn_str e))
       end).

Definition validate_pdf (pdf_bytes : list Byte.byte) : M bool :=
  emit (PdfOpen pdf_bytes) ;;;
  match PdfReader pdf_bytes with
  | Raises _ => ret false
  | Returns reader =>
      match pages reader with
      | Raises _ => ret false
      | Returns _ => ret true
      end
  end.

End WithLibrary.

End PdfProcessor.

(* ===================================================================== *)
(** ** backend/gemini_client.py *)
(* ===================================================================== *)

Module GeminiClient.

Section WithModel.

Variable settings : Config.Settings.

(** [self.model.generate_content(prompt, ...)] followed by the read of
    [response.text]: the completion, or an exception from either. *)
Variable generate_content : str -> float -> Z -> attempt (list N).

Definition generate_text
  (prompt : str) (temperature : option float) (max_tokens : option Z)
  : M str :=
  try_except
    (let temp := default (Config.temperature settings) temperature in
     let max_tok := default (Config.max_tokens settings) max_tokens in
     emit (GenerateContent prompt temp max_tok) ;;;
     match generate_content prompt temp max_tok with
     | Raises msg => raise (Exception msg)
     | Returns text =>
         if negb (truthy text)
         then raise (Exception (lit "Empty response from Gemini API"))
         else ret (strip text)
     end)
    (fun e =>
       raise (Exception (lit "Failed to generate text: " ++ exn_str e))).

Definition summarize_text
  (text : str) (max_length : option Z) (style : str) : M str :=
  prompt <- lift (get_summarization_prompt text max_length style) ;;
  generate_text prompt (Some 0x1.3333333333333p-2%float) None.

Definition answer_question
  (question context : str) (include_sources : bool) : M str :=
  let prompt := get_rag_prompt question context include_sources in
  generate_text prompt (Some 0.5%float) None.

End WithModel.

End GeminiClient.

(* ===================================================================== *)
(** ** backend/models.py *)
(* ===================================================================== *)

Module Models.

Module SummarizeRequest.
Record t := {
  text : str;
  max_length : option Z;
  style : option (list N);
}.
End SummarizeRequest.

Module QueryRequest.
Record t := {
  question : str;
  context : str;
  include_sources : option bool;
}.
End QueryRequest.

Module SummarizeResponse.
Record t := {
  summary : str;
  original_length : Z;
  summary_length : Z;
  compression_ratio : float;
  source_type : str;
  pdf_metadata : option (gmap string pyval);
}.
End SummarizeResponse.

Module QueryResponse.
Record t := {
  answer : str;
  confidence : option float;
  sources : option (list (list N));
  source_type : str;
  pdf_metadata : option (gmap string pyval);
}.
End QueryResponse.

Module ErrorResponse.
Record t := {
  error : str;
  detail : option (list N);
  error_code : option (list N);
}.
End ErrorResponse.

(** A field of a JSON request body, already of the declared JSON type:
    missing, [null], or a value. *)
Inductive field (A : Type) :=
| Absent
| Null
| Present (a : A).
Arguments Absent {A}.
Arguments Null {A}.
Arguments Present {A} a.

Module SummarizeBody.
Record t := {
  text : field (list N);
  max_length : field Z;
  style : field (list N);
}.
End SummarizeBody.

Module QueryBody.
Record t := {
  question : field (list N);
  context : field (list N);
  include_sources : field bool;
}.
End QueryBody.

(** The outcome of building a model from a body: the model, or the
    fields that pydantic reports. *)
Inductive validated (A : Type) :=
| Valid (a : A)
| Invalid (fields : list string).
Arguments Valid {A} a.
Arguments Invalid {A} fields.

(** [Field(..., min_length=lo, max_length=hi)] on a required [str]. *)
Definition required_str (name : string) (lo hi : Z) (f : field (list N))
  : list string :=
  match f with
  | Present s => if (lo <=? len s)%Z && (len s <=? hi)%Z then [] else [name]
  | _ => [name]
  end.

(** [Field(default=None, ge=lo, le=hi)] on an [Optional[int]]. *)
Definition optional_int (name : string) (lo hi : Z) (f : field Z)
  : list string :=
  match f with
  | Present n => if (lo <=? n)%Z && (n <=? hi)%Z then [] else [name]
  | _ => []
  end.

(** The value of an [Optional] field with default [d]. *)
Definition optional {A} (d : option A) (f : field A) : option A :=
  match f with
  | Absent => d
  | Null => None
  | Present a => Some a
  end.

Definition value_of (f : field (list N)) : str :=
  match f with
  | Present s => s
  | _ => []
  end.

Definition validate_summarize (b : SummarizeBody.t)
  : validated SummarizeRequest.t :=
  match required_str "text" 1 50000 (SummarizeBody.text b) ++
        optional_int "max_length" 10 1000 (SummarizeBody.max_length b) with
  | [] =>
      Valid {| SummarizeRequest.text := value_of (SummarizeBody.text b);
               SummarizeRequest.max_length :=
                 optional None (SummarizeBody.max_length b);
               SummarizeRequest.style :=
                 optional (Some (lit "concise")) (SummarizeBody.style b) |}
  | errors => Invalid errors
  end.

Definition validate_query (b : QueryBody.t) : validated QueryRequest.t :=
  match required_str "question" 1 1000 (QueryBody.question b) ++
        required_str "context" 1 50000 (QueryBody.context b) with
  | [] =>
      Valid {| QueryRequest.question := value_of (QueryBody.question b);
               QueryRequest.context := value_of (QueryBody.context b);
               QueryRequest.include_sources :=
                 optional (Some false) (QueryBody.include_sources b) |}
  | errors => Invalid errors
  end.

End Models.
Import Models.

(* ===================================================================== *)
(** ** backend/main.py *)
(* ===================================================================== *)

Module Main.

(** [a / b] on two [int]s that are exactly representable in binary64
    (here: lengths of strings). *)
Definition truediv (a b : Z) : float :=
  PrimFloat.div (PrimFloat.of_uint63 (Uint63.of_Z a))
                (PrimFloat.of_uint63 (Uint63.of_Z b)).

(** [s or d] on strings. *)
Definition str_or (s d : str) : str := if truthy s then s else d.

(** [fastapi.UploadFile]: the name of the upload and what [file.read()]
    returns. *)
Record UploadFile := {
  filename : str;
  read : list Byte.byte;
}.

(** A request to one of the four [POST] routes, with what FastAPI hands
    to the endpoint or, for a JSON body, to the model first.  The parts
    of an upload are those that FastAPI has parsed already: a request
    whose multipart form lacks [file] or [question] ([File(...)],
    [Form(...)]) is answered by FastAPI before the endpoint is called,
    and is no request of this type. *)
Inductive request :=
| PostSummarize (b : SummarizeBody.t)
| PostQuery (b : QueryBody.t)
| PostSummarizePdf (file : UploadFile) (max_length : option Z) (style : str)
| PostQueryPdf (file : UploadFile) (question : str) (include_sources : bool).

(** The body of an HTTP response. *)
Inductive body :=
| SummarizeJSON (r : SummarizeResponse.t)
| QueryJSON (r : QueryResponse.t)
| DetailJSON (detail : str)            (* FastAPI's rendering of HTTPException *)
| ErrorJSON (r : ErrorResponse.t)
| ValidationJSON (fields : list string).  (* FastAPI's 422 *)

Record response := {
  status_code : Z;
  content : body;
}.

(** The endpoints, given the settings, the remote model, the PDF library
    (which [get_pdf_processor()] finds installed) and the case table of
    the interpreter. *)
Section WithCollaborators.

Variable settings : Config.Settings.
Variable generate_content : str -> float -> Z -> attempt (list N).
Variable PdfReader : list Byte.byte -> attempt PdfProcessor.Reader.
Variable unicode_lower : N -> list N.

Definition global_exception_handler (exc : exn) : response :=
  {| status_code := 500;
     content :=
       ErrorJSON
         {| ErrorResponse.error := lit "Internal server error";
            ErrorResponse.detail :=
              Some (if Config.debug settings then exn_str exc
                    else lit "An unexpected error occurred");
            ErrorResponse.error_code := None |} |}.

Definition summarize_text (request : SummarizeRequest.t)
  : M SummarizeResponse.t :=
  try_except
    (summary <-
       GeminiClient.summarize_text settings generate_content
         (SummarizeRequest.text request)
         (SummarizeRequest.max_length request)
         (str_or (default [] (SummarizeRequest.style request))
                 (lit "concise")) ;;
     let original_length := len (SummarizeRequest.text request) in
     let summary_length := len summary in
     let compression_ratio :=
       if (0 <? original_length)%Z
       then truediv summary_length original_length
       else 0%float in
     ret {| SummarizeResponse.summary := summary;
            SummarizeResponse.original_length := original_length;
            SummarizeResponse.summary_length := summary_length;
            SummarizeResponse.compression_ratio := compression_ratio;
            SummarizeResponse.source_type := lit "text";
            SummarizeResponse.pdf_metadata := None |})
    (fun e =>
       raise (HTTPException 500
                (lit "Summarization failed: " ++ exn_str e))).

Definition query_document (request : QueryRequest.t)
  : M QueryResponse.t :=
  try_except
    (answer <-
       GeminiClient.answer_question settings generate_content
         (QueryRequest.question request)
         (QueryRequest.context request)
         (default false (QueryRequest.include_sources request)) ;;
     ret {| QueryResponse.answer := answer;
            QueryResponse.confidence := None;
            QueryResponse.sources :=
              if negb (default false (QueryRequest.include_sources request))
              then None else Some [];
            QueryResponse.source_type := lit "text";
            QueryResponse.pdf_metadata := None |})
    (fun e =>
       raise (HTTPException 500
                (lit "Query processing failed: " ++ exn_str e))).

Definition summarize_pdf
  (file : UploadFile) (max_length : option Z) (style : str)
  : M SummarizeResponse.t :=
  try_except
    (if negb (endswith (lower unicode_lower (filename file)) (lit ".pdf"))
     then raise (HTTPException 400 (lit "Only PDF files are supported"))
     else
       let pdf_content := read file in
       valid <- PdfProcessor.validate_pdf PdfReader pdf_content ;;
       if negb valid
       then raise (HTTPException 400 (lit "Invalid PDF file"))
       else
         extracted <-
           PdfProcessor.extract_text_from_bytes PdfReader pdf_content ;;
         let text_content := fst extracted in
         let pdf_metadata := snd extracted in
         summary <-
           GeminiClient.summarize_text settings generate_content
             text_content max_length (str_or style (lit "concise")) ;;
         let original_length := len text_content in
         let summary_length := len summary in
         let compression_ratio :=
           if (0 <? original_length)%Z
           then truediv summary_length original_length
           else 0%float in
         ret {| SummarizeResponse.summary := summary;
                SummarizeResponse.original_length := original_length;
                SummarizeResponse.summary_length := summary_length;
                SummarizeResponse.compression_ratio := compression_ratio;
                SummarizeResponse.source_type := lit "pdf";
                SummarizeResponse.pdf_metadata := Some pdf_metadata |})
    (fun e =>
       match e with
       | PDFProcessingError _ =>
           raise (HTTPException 400
                    (lit "PDF processing failed: " ++ exn_str e))
       | HTTPException _ _ => raise e
       | Exception _ =>
           raise (HTTPException 500
                    (lit "PDF summarization failed: " ++ exn_str e))
       end).

Definition query_pdf
  (file : UploadFile) (question : str) (include_sources : bool)
  : M QueryResponse.t :=
  try_except
    (if negb (truthy (strip question))
     then raise (HTTPException 400 (lit "Question cannot be empty"))
     else
     if negb (endswith (lower unicode_lower (filename file)) (lit ".pdf"))
     then raise (HTTPException 400 (lit "Only PDF files are supported"))
     else
       let pdf_content := read file in
       valid <- PdfProcessor.validate_pdf PdfReader pdf_content ;;
       if negb valid
       then raise (HTTPException 400 (lit "Invalid PDF file"))
       else
         extracted <-
           PdfProcessor.extract_text_from_bytes PdfReader pdf_content ;;
         let text_content := fst extracted in
         let pdf_metadata := snd extracted in
         answer <-
           GeminiClient.answer_question settings generate_content
             question text_content include_sources ;;
         ret {| QueryResponse.answer := answer;
                QueryResponse.confidence := None;
                QueryResponse.sources :=
                  if negb include_sources then None else Some [];
                QueryResponse.source_type := lit "pdf";
                QueryResponse.pdf_metadata := Some pdf_metadata |})
    (fun e =>
       match e with
       | PDFProcessingError _ =>
           raise (HTTPException 400
                    (lit "PDF processing failed: " ++ exn_str e))
       | HTTPException _ _ => raise e
       | Exception _ =>
           raise (HTTPException 500
                    (lit "PDF query processing failed: " ++ exn_str e))
       end).

(** What FastAPI does with the outcome of an endpoint: a returned
    model is sent with status 200, an [HTTPException] becomes a
    response with its status and [detail], any other exception goes
    to the handler registered for [Exception].  The returned model is
    the body as it stands: its serialization against [response_model],
    which fails on a [pdf_metadata] that holds objects of the PDF
    library instead of strings, comes after the endpoint and is not
    part of [respond]. *)
Definition respond {A} (wrap : A -> body) (endpoint : M A)
  : list event -> response * list event :=
  fun log =>
    match endpoint log with
    | (Ok a, log') => ({| status_code := 200; content := wrap a |}, log')
    | (Raise (HTTPException sc detail), log') =>
        ({| status_code := sc; content := DetailJSON detail |}, log')
    | (Raise e, log') => (global_exception_handler e, log')
    end.

(** [POST /summarize]: the body is validated against
    [SummarizeRequest] before the endpoint is called. *)
Definition post_summarize (b : SummarizeBody.t)
  : list event -> response * list event :=
  match validate_summarize b with
  | Invalid fields =>
      fun log =>
        ({| status_code := 422; content := ValidationJSON fields |}, log)
  | Valid request => respond SummarizeJSON (summarize_text request)
  end.

(** [POST /query] *)
Definition post_query (b : QueryBody.t)
  : list event -> response * list event :=
  match validate_query b with
  | Invalid fields =>
      fun log =>
        ({| status_code := 422; content := ValidationJSON fields |}, log)
  | Valid request => respond QueryJSON (query_document request)
  end.

(** [POST /summarize-pdf] *)
Definition post_summarize_pdf
  (file : UploadFile) (max_length : option Z) (style : str)
  : list event -> response * list event :=
  respond SummarizeJSON (summarize_pdf file max_length style).

(** [POST /query-pdf] *)
Definition post_query_pdf
  (file : UploadFile) (question : str) (include_sources : bool)
  : list event -> response * list event :=
  respond QueryJSON (query_pdf file question include_sources).

(** The routes of [app]. *)
Definition app (req : request) : list event -> response * list event :=
  match req with
  | PostSummarize b => post_summarize b
  | PostQuery b => post_query b
  | PostSummarizePdf file max_length style =>
      post_summarize_pdf file max_length style
  | PostQueryPdf file question include_sources =>
      post_query_pdf file question include_sources
  end.

End WithCollaborators.

End Main.

(* ===================================================================== *)
(** ** Vocabulary of the properties *)
(* ===================================================================== *)

Module Vocabulary.

(** The length line that [{% if max_length %}] contributes. *)
Definition length_line (before after : list N) (max_length : option Z)
  : list N :=
  match max_length with
  | None => []
  | Some n => if (n =? 0)%Z then [] else before ++ str_of_int n ++ after
  end.

(** The fixed texts of a style, as [get_summarization_prompt] puts
    them around the length line and the caller's text. *)
Definition prompt_parts (template : list node)
  : list N * list N * list N * list N * list N :=
  match template with
  | [ Data head; If _ [Data before; _; Data after] _; Data middle; _;
      Data closing ] => (head, before, after, middle, closing)
  | _ => ([], [], [], [], [])
  end.

(** A page counts when its extraction returns text that is not empty
    once stripped: the test [if text.strip()] of the page loop. *)
Definition yields_text (page : attempt (list N)) : bool :=
  match page with
  | Returns text => truthy (strip text)
  | Raises _ => false
  end.

(** The number of pages that count. *)
Definition pages_with_text (reader_pages : list (attempt (list N))) : nat :=
  length (List.filter yields_text reader_pages).

(** The optional fields of the metadata record. *)
Definition optional_fields : list string :=
  [ "title"; "author"; "subject"; "creator"; "producer";
    "creation_date"; "modification_date" ].

(** The error of a document without usable text. *)
Definition NoText : exn :=
  PDFProcessingError (lit "No text could be extracted from the PDF").

(** Why a completion makes [generate_text] fail, if it does: the remote
    call raised, or the completion is the empty string. *)
Definition failure_reason (completion : attempt (list N)) : option (list N) :=
  match completion with
  | Raises msg => Some msg
  | Returns [] => Some (lit "Empty response from Gemini API")
  | Returns (_ :: _) => None
  end.

(** A string without white space at either end. *)
Definition trimmed (s : list N) : Prop :=
  match s with
  | [] => True
  | c :: _ => isspace c = false
  end /\
  match rev s with
  | [] => True
  | c :: _ => isspace c = false
  end.

(** What [generate_text] makes of a completion. *)
Definition completion_outcome (completion : attempt (list N))
  : result (list N) :=
  match completion with
  | Raises msg => Raise (Exception (lit "Failed to generate text: " ++ msg))
  | Returns [] =>
      Raise (Exception (lit "Failed to generate text: " ++
                        lit "Empty response from Gemini API"))
  | Returns text => Ok (strip text)
  end.

(** The metrics of a summary response for the text that was summarized. *)
Definition metrics_of (text : list N) (r : SummarizeResponse.t) : Prop :=
  SummarizeResponse.original_length r = len text /\
  SummarizeResponse.summary_length r = len (SummarizeResponse.summary r) /\
  ((0 < SummarizeResponse.original_length r)%Z ->
   SummarizeResponse.compression_ratio r
   = Main.truediv (SummarizeResponse.summary_length r)
                  (SummarizeResponse.original_length r)) /\
  (SummarizeResponse.original_length r = 0%Z ->
   SummarizeResponse.compression_ratio r = 0%float).

(** The prompt that [get_summarization_prompt] returns. *)
Definition summarization_prompt
  (text : list N) (max_length : option Z) (style : list N) : list N :=
  match get_summarization_prompt text max_length style with
  | Ok prompt => prompt
  | Raise _ => []
  end.

(** The temperature of a summarization call: the double of the literal
    [0.3]. *)
Definition summarization_temperature : float := 0x1.3333333333333p-2%float.

(** The outcome of [validate_pdf]. *)
Definition valid_pdf
  (PdfReader : list Byte.byte -> attempt PdfProcessor.Reader)
  (pdf_bytes : list Byte.byte) : bool :=
  match PdfReader pdf_bytes with
  | Returns reader =>
      match PdfProcessor.pages reader with
      | Returns _ => true
      | Raises _ => false
      end
  | Raises _ => false
  end.

(** The outcome of [extract_text_from_bytes]. *)
Definition extraction_outcome
  (PdfReader : list Byte.byte -> attempt PdfProcessor.Reader)
  (pdf_bytes : list Byte.byte) : result (list N * gmap string pyval) :=
  match PdfProcessor.extract_text_body PdfReader pdf_bytes with
  | Ok v => Ok v
  | Raise (PDFProcessingError msg) => Raise (PDFProcessingError msg)
  | Raise e =>
      Raise (PDFProcessingError
               (lit "Failed to extract text from PDF: " ++ exn_str e))
  end.

(** The suffix test of the two upload endpoints. *)
Definition has_pdf_suffix (unicode_lower : N -> list N) (filename : list N)
  : bool :=
  endswith (lower unicode_lower filename) (lit ".pdf").

(** The text a summarize request resolves to: the text of the body, or
    the text extracted from the upload. *)
Definition resolved_text
  (PdfReader : list Byte.byte -> attempt PdfProcessor.Reader)
  (req : Main.request) : option (list N) :=
  match req with
  | Main.PostSummarize b => Some (value_of (SummarizeBody.text b))
  | Main.PostSummarizePdf file _ _ =>
      match fst (PdfProcessor.extract_text_from_bytes PdfReader
                   (Main.read file) []) with
      | Ok (text, _) => Some text
      | Raise _ => None
      end
  | _ => None
  end.

(** Whether a query request asks for sources. *)
Definition sources_requested (req : Main.request) : bool :=
  match req with
  | Main.PostQuery b =>
      match QueryBody.include_sources b with
      | Present include_sources => include_sources
      | _ => false
      end
  | Main.PostQueryPdf _ _ include_sources => include_sources
  | _ => false
  end.

(** A required string field holds a string of [lo] to [hi] characters. *)
Definition str_within (lo hi : Z) (f : field (list N)) : Prop :=
  exists s, f = Present s /\ (lo <= len s <= hi)%Z.

(** An optional integer field, when it holds an integer, holds one of
    [lo] to [hi]. *)
Definition int_within (lo hi : Z) (f : field Z) : Prop :=
  forall n, f = Present n -> (lo <= n <= hi)%Z.

(** The field [name] of the JSON body of [req] breaks its constraint. *)
Definition violates (req : Main.request) (name : string) : Prop :=
  match req with
  | Main.PostSummarize b =>
      (name = "text" /\ ~ str_within 1 50000 (SummarizeBody.text b)) \/
      (name = "max_length" /\
       ~ int_within 10 1000 (SummarizeBody.max_length b))
  | Main.PostQuery b =>
      (name = "question" /\ ~ str_within 1 1000 (QueryBody.question b)) \/
      (name = "context" /\ ~ str_within 1 50000 (QueryBody.context b))
  | _ => False
  end.

(** The text that an endpoint puts before the error of the gateway. *)
Definition failure_prefix (req : Main.request) : list N :=
  match req with
  | Main.PostSummarize _ => lit "Summarization failed: "
  | Main.PostQuery _ => lit "Query processing failed: "
  | Main.PostSummarizePdf _ _ _ => lit "PDF summarization failed: "
  | Main.PostQueryPdf _ _ _ => lit "PDF query processing failed: "
  end.

(** The response to an upload whose name fails the suffix test. *)
Definition only_pdf_rejection : Main.response :=
  {| Main.status_code := 400;
     Main.content := Main.DetailJSON (lit "Only PDF files are supported") |}.

End Vocabulary.
Import Vocabulary.

(* ===================================================================== *)
(** ** Test doubles *)
(* ===================================================================== *)

Module Stubs.

(** The settings of a deployment with [DEBUG=false]. *)
Definition production : Config.Settings :=
  {| Config.debug := false;
     Config.max_tokens := 2048;
     Config.temperature := 0x1.6666666666666p-1%float |}.

(** A model that answers every prompt with the same completion. *)
Definition answers (completion : list N)
  : list N -> float -> Z -> attempt (list N) :=
  fun _ _ _ => Returns completion.

(** A model whose every call raises. *)
Definition fails (msg : list N) : list N -> float -> Z -> attempt (list N) :=
  fun _ _ _ => Raises msg.

(** A PDF library that opens every buffer as the same document. *)
Definition opens (reader : PdfProcessor.Reader)
  : list Byte.byte -> attempt PdfProcessor.Reader :=
  fun _ => Returns reader.

(** A PDF library that opens nothing. *)
Definition no_pdf : list Byte.byte -> attempt PdfProcessor.Reader :=
  fun _ => Raises (lit "EOF marker not found").

(** A case table that leaves the code points above 127 as they are. *)
Definition ascii_only : N -> list N := fun c => [c].

(** Scenario A of the specification: 500 characters to summarize in the
    concise style, in about 50 words. *)
Definition scenario_a : Main.request :=
  Main.PostSummarize
    {| SummarizeBody.text := Present (repeat 97%N 500);
       SummarizeBody.max_length := Present 50%Z;
       SummarizeBody.style := Present (lit "concise") |}.

(** Scenario B: an empty text. *)
Definition scenario_b : Main.request :=
  Main.PostSummarize
    {| SummarizeBody.text := Present [];
       SummarizeBody.max_length := Absent;
       SummarizeBody.style := Present (lit "concise") |}.

(** Scenario E: a question with sources requested. *)
Definition scenario_e : Main.request :=
  Main.PostQuery
    {| QueryBody.question := Present (lit "What is X?");
       QueryBody.context := Present (lit "X is the unknown.");
       QueryBody.include_sources := Present true |}.

(** A text that is a single space. *)
Definition one_space : Main.request :=
  Main.PostSummarize
    {| SummarizeBody.text := Present (lit " ");
       SummarizeBody.max_length := Absent;
       SummarizeBody.style := Absent |}.

(** An upload that is no PDF by its name, with a blank question. *)
Definition blank_question : Main.request :=
  Main.PostQueryPdf
    {| Main.filename := lit "notes.txt"; Main.read := [] |} (lit " ") false.

End Stubs.

(* ===================================================================== *)
(** ** frontend/api_client.py *)
(* ===================================================================== *)

(** The requests that the client of the user interface sends: the route
    and the JSON [data] of each call. *)
Module ApiClient.

Definition summarize_text
  (text : str) (max_length : option Z) (style : str) : Main.request :=
  let data :=
    {| SummarizeBody.text := Present text;
       SummarizeBody.max_length := Absent;
       SummarizeBody.style := Present style |} in
  let data :=
    match max_length with
    | Some n =>
        if negb (n =? 0)%Z                      (* if max_length: *)
        then {| SummarizeBody.text := SummarizeBody.text data;
                SummarizeBody.max_length := Present n;
                SummarizeBody.style := SummarizeBody.style data |}
        else data
    | None => data
    end in
  Main.PostSummarize data.

Definition query_document
  (question context : str) (include_sources : bool) : Main.request :=
  Main.PostQuery
    {| QueryBody.question := Present question;
       QueryBody.context := Present context;
       QueryBody.include_sources := Present include_sources |}.

End ApiClient.

(* ===================================================================== *)
(** ** Vocabulary of the further properties *)
(* ===================================================================== *)

Module Observations.

(** The block of a numbered page, if the page counts. *)
Definition block_of (numbered : nat * attempt (list N)) : option (list N) :=
  match numbered with
  | (page_num, Returns text) =>
      if truthy (strip text)
      then Some (PdfProcessor.page_block page_num text)
      else None
  | (_, Raises _) => None
  end.

(** The blocks of the pages of a document, in ascending page order. *)
Definition blocks_of (reader_pages : list (attempt (list N)))
  : list (list N) :=
  omap block_of (zip (seq 0 (length reader_pages)) reader_pages).

(** The keys of the metadata of a successful extraction. *)
Definition result_keys : list string :=
  optional_fields ++ ["pages_processed"; "total_pages"; "text_length"].

Definition is_generate (ev : event) : bool :=
  match ev with
  | GenerateContent _ _ _ => true
  | PdfOpen _ => false
  end.

(** The number of calls of the model among some events. *)
Definition model_calls (events : list event) : nat :=
  length (List.filter is_generate events).

(** The upload of a request, if it has one. *)
Definition upload_of (req : Main.request) : list Byte.byte :=
  match req with
  | Main.PostSummarizePdf file _ _ => Main.read file
  | Main.PostQueryPdf file _ _ => Main.read file
  | _ => []
  end.

(** The temperature that the client fixes for a route: the doubles of
    [0.3] for the summaries and of [0.5] for the answers. *)
Definition route_temperature (req : Main.request) : float :=
  match req with
  | Main.PostSummarize _ | Main.PostSummarizePdf _ _ _ =>
      0x1.3333333333333p-2%float
  | Main.PostQuery _ | Main.PostQueryPdf _ _ _ => 0.5%float
  end.

(** The closing label of the prompt of a style. *)
Definition closing_label (style : list N) : list N :=
  if decide (style = lit "detailed") then lit "Detailed Summary:"
  else if decide (style = lit "bullet_points")
       then lines ["Bullet Point Summary:"; blank] ++ [226%N; 8364%N; 162%N]
       else lit "Summary:".

(** A style field that selects the concise template: missing, null, or
    any string but the names of the two other templates. *)
Definition concise_like (style : field (list N)) : Prop :=
  match style with
  | Present s => s <> lit "detailed" /\ s <> lit "bullet_points"
  | _ => True
  end.

(** The body [b] with the style [concise]. *)
Definition with_concise (b : SummarizeBody.t) : SummarizeBody.t :=
  {| SummarizeBody.text := SummarizeBody.text b;
     SummarizeBody.max_length := SummarizeBody.max_length b;
     SummarizeBody.style := Present (lit "concise") |}.

(** The details of the 400 responses of the two upload routes. *)
Definition upload_rejections : list (list N) :=
  [ lit "Question cannot be empty";
    lit "Only PDF files are supported";
    lit "Invalid PDF file";
    lit "PDF processing failed: No text could be extracted from the PDF" ].

(** The template that a style selects. *)
Definition template_for (style : list N) : list node :=
  if decide (style = lit "detailed") then detailed
  else if decide (style = lit "bullet_points") then bullet_points
       else concise.

(** The text and the metadata of an extraction, when it succeeded. *)
Definition extracted_text (r : result (list N * gmap string pyval))
  : list N :=
  match r with
  | Ok (text, _) => text
  | Raise _ => []
  end.

Definition extracted_metadata (r : result (list N * gmap string pyval))
  : gmap string pyval :=
  match r with
  | Ok (_, md) => md
  | Raise _ => ∅
  end.

Definition succeeded (r : result (list N * gmap string pyval)) : bool :=
  match r with
  | Ok _ => true
  | Raise _ => false
  end.

(** A document of three pages, the second of which cannot be read, with
    a title and a creation date. *)
Definition three_pages : PdfProcessor.Reader :=
  {| PdfProcessor.metadata :=
       Returns (Some (<["/Title" := lit "Test Document"]>
                        (<["/CreationDate" := lit "D:20240101"]> ∅)));
     PdfProcessor.pages :=
       Returns [ Returns (lit "First page."); Raises (lit "broken");
                 Returns (lit "  Third page.  ") ] |}.

(** What leaves an endpoint function: the model it returns, or an
    [HTTPException] whose status is one of [statuses]. *)
Definition http_outcome {A} (statuses : list Z) (outcome : result A) : Prop :=
  match outcome with
  | Ok _ => True
  | Raise (HTTPException sc _) => In sc statuses
  | Raise _ => False
  end.

(** The summary that a response carries; a response without a summary
    gives the empty one. *)
Definition summary_of (resp : Main.response) : SummarizeResponse.t :=
  match Main.content resp with
  | Main.SummarizeJSON r => r
  | _ =>
      {| SummarizeResponse.summary := [];
         SummarizeResponse.original_length := 0;
         SummarizeResponse.summary_length := 0;
         SummarizeResponse.compression_ratio := 0%float;
         SummarizeResponse.source_type := [];
         SummarizeResponse.pdf_metadata := None |}
  end.

(** A response is a 200 that carries a summary. *)
Definition is_summary (resp : Main.response) : bool :=
  (Main.status_code resp =? 200)%Z &&
  match Main.content resp with
  | Main.SummarizeJSON _ => true
  | _ => false
  end.

(** An upload named in capitals, to summarize in the concise style
    without a maximum length. *)
Definition report_upload : Main.request :=
  Main.PostSummarizePdf
    {| Main.filename := lit "REPORT.PDF"; Main.read := [] |}
    None (lit "concise").

End Observations.
Import Observations.

(* ===================================================================== *)
(** * Properties *)
(* ===================================================================== *)

(** ** Substrings *)

Section Substrings.

Implicit Types (p s needle hay : list N).

Lemma startswith_app p t : startswith p (p ++ t) = true.
Proof.
  induction p as [|a p IH]; [reflexivity|].
  simpl. rewrite N.eqb_refl. exact IH.
Qed.

Lemma startswith_inv p s : startswith p s = true -> exists t, s = p ++ t.
Proof.
  revert s. induction p as [|a p IH]; intros s H.
  - exists s. reflexivity.
  - destruct s as [|b s]; [discriminate|].
    simpl in H. apply andb_prop in H as [Hab Hps].
    apply N.eqb_eq in Hab. subst b.
    destruct (IH s Hps) as [t ->]. exists t. reflexivity.
Qed.

Lemma contains_startswith needle hay :
  startswith needle hay = true -> contains needle hay = true.
Proof. intros H. destruct hay; simpl; rewrite H; reflexivity. Qed.

Lemma contains_intro needle a b : contains needle (a ++ needle ++ b) = true.
Proof.
  induction a as [|c a IH].
  - change ([] ++ needle ++ b) with (needle ++ b).
    apply contains_startswith, startswith_app.
  - change ((c :: a) ++ needle ++ b) with (c :: (a ++ needle ++ b)).
    simpl. rewrite IH. apply orb_true_r.
Qed.

Lemma contains_inv needle hay :
  contains needle hay = true -> exists a b, hay = a ++ needle ++ b.
Proof.
  induction hay as [|c hay IH]; simpl; intros H.
  - rewrite orb_false_r in H. apply startswith_inv in H as [t Ht].
    exists [], t. exact Ht.
  - apply orb_prop in H as [H|H].
    + apply startswith_inv in H as [t Ht]. exists [], t. exact Ht.
    + destruct (IH H) as (a & b & ->). exists (c :: a), b. reflexivity.
Qed.

(** An occurrence of [needle] cannot straddle a code point that
    [needle] does not have. *)
Lemma occurrence_sep needle a c b x y :
  needle <> [] -> ~ In c needle ->
  a ++ c :: b = x ++ needle ++ y ->
  (exists a', a = x ++ needle ++ a') \/ (exists b', b = b' ++ needle ++ y).
Proof.
  intros Hne Hc. revert x.
  induction a as [|d a IH]; intros x E.
  - right. destruct x as [|e x]; simpl in E.
    + destruct needle as [|n0 needle]; [congruence|].
      injection E as -> _. exfalso. apply Hc. left. reflexivity.
    + injection E as _ ->. exists x. reflexivity.
  - destruct x as [|e x]; simpl in E.
    + (* the occurrence starts at the head of [d :: a] *)
      assert (Hlen : (length needle <= length (d :: a))%nat \/
                     (length (d :: a) < length needle)%nat) by lia.
      destruct Hlen as [Hlen|Hlen].
      * left.
        exists (skipn (length needle) (d :: a)).
        change ((d :: a) ++ c :: b = needle ++ y) in E.
        assert (Ht : take (length needle) ((d :: a) ++ c :: b) = needle).
        { rewrite E. rewrite take_app_length. reflexivity. }
        rewrite take_app_le in Ht by exact Hlen.
        simpl app at 1.
        rewrite <- Ht at 1.
        symmetry. apply take_drop.
      * exfalso. apply Hc.
        change ((d :: a) ++ c :: b = needle ++ y) in E.
        assert (Hl : needle !! length (d :: a) = Some c).
        { assert (Hx : (needle ++ y) !! length (d :: a) = Some c).
          { rewrite <- E. rewrite lookup_app_r by lia.
            replace (length (d :: a) - length (d :: a))%nat with 0%nat by lia.
            reflexivity. }
          rewrite lookup_app_l in Hx by exact Hlen. exact Hx. }
        apply list_elem_of_In. eapply list_elem_of_lookup_2. exact Hl.
    + injection E as -> E.
      destruct (IH x E) as [[a' ->]|[b' ->]].
      * left. exists a'. reflexivity.
      * right. exists b'. reflexivity.
Qed.

Lemma contains_sep needle a c b :
  needle <> [] -> ~ In c needle ->
  contains needle (a ++ c :: b) = contains needle a || contains needle b.
Proof.
  intros Hne Hc.
  destruct (contains needle (a ++ c :: b)) eqn:E.
  - apply contains_inv in E as (x & y & E).
    destruct (occurrence_sep _ _ _ _ _ _ Hne Hc E) as [[a' ->]|[b' ->]].
    + rewrite contains_intro. reflexivity.
    + rewrite (contains_intro needle b' y). symmetry. apply orb_true_r.
  - symmetry. apply orb_false_intro.
    + destruct (contains needle a) eqn:Ea; [|reflexivity].
      apply contains_inv in Ea as (x & y & ->).
      rewrite <- !app_assoc in E.
      rewrite (contains_intro needle x (y ++ c :: b)) in E. discriminate.
    + destruct (contains needle b) eqn:Eb; [|reflexivity].
      apply contains_inv in Eb as (x & y & ->).
      replace (a ++ c :: x ++ needle ++ y)
        with ((a ++ c :: x) ++ needle ++ y) in E
        by (rewrite <- app_assoc; reflexivity).
      rewrite contains_intro in E. discriminate.
Qed.

(** Text inserted between two fixed parts that end and begin with a
    code point foreign to [needle]. *)
Lemma contains_between needle c pre post pre' post' text :
  pre = pre' ++ [c] -> post = c :: post' ->
  needle <> [] -> ~ In c needle ->
  contains needle pre' = false -> contains needle post' = false ->
  contains needle (pre ++ text ++ post) = contains needle text.
Proof.
  intros -> -> Hne Hc Hpre Hpost.
  rewrite <- app_assoc. simpl.
  rewrite contains_sep by assumption.
  rewrite contains_sep by assumption.
  rewrite Hpre, Hpost. simpl. apply orb_false_r.
Qed.

Lemma contains_between_fixed needle c pre post text :
  pre = removelast pre ++ [c] -> post = c :: tl post ->
  needle <> [] -> ~ In c needle ->
  contains needle (removelast pre) = false ->
  contains needle (tl post) = false ->
  contains needle (pre ++ text ++ post) = contains needle text.
Proof. apply contains_between. Qed.

End Substrings.

(** ** The summarization prompt *)

Section Prompts.

(** The four cases of [SUMMARIZATION_TEMPLATES !! style]. *)
Lemma templates_lookup (style : list N) :
  (style = lit "concise" /\ SUMMARIZATION_TEMPLATES !! style = Some concise) \/
  (style = lit "detailed" /\ SUMMARIZATION_TEMPLATES !! style = Some detailed) \/
  (style = lit "bullet_points" /\
   SUMMARIZATION_TEMPLATES !! style = Some bullet_points) \/
  (style <> lit "concise" /\ style <> lit "detailed" /\
   style <> lit "bullet_points" /\ SUMMARIZATION_TEMPLATES !! style = None).
Proof.
  unfold SUMMARIZATION_TEMPLATES.
  destruct (decide (style = lit "concise")) as [->|H1].
  { left. split; [reflexivity|]. apply lookup_insert_eq. }
  destruct (decide (style = lit "detailed")) as [->|H2].
  { right; left. split; [reflexivity|].
    rewrite lookup_insert_ne by discriminate. apply lookup_insert_eq. }
  destruct (decide (style = lit "bullet_points")) as [->|H3].
  { right; right; left. split; [reflexivity|].
    rewrite !lookup_insert_ne by discriminate. apply lookup_insert_eq. }
  right; right; right. repeat split; try assumption.
  rewrite !lookup_insert_ne by congruence. apply lookup_empty.
Qed.

(** Rendering a template of the shape the three summarization
    templates share. *)
Lemma render_summarization head before after middle closing text max_length :
  render
    [ Data head;
      If "max_length" [Data before; Var "max_length"; Data after] [];
      Data middle; Var "text"; Data closing ]
    (<["text" := VStr text]>
       (<["max_length" := int_or_none max_length]> ∅)) =
  head ++ length_line before after max_length ++ middle ++ text ++ closing.
Proof.
  unfold render. cbn [map concat render_node].
  rewrite lookup_insert_eq.
  rewrite lookup_insert_ne by discriminate.
  rewrite lookup_insert_eq.
  rewrite !app_nil_r.
  destruct max_length as [n|]; cbn [int_or_none test output length_line].
  - destruct (n =? 0)%Z; cbn [negb]; [reflexivity|].
    rewrite <- ?app_assoc. reflexivity.
  - reflexivity.
Qed.

(** The fallback: an unknown style is looked up as [concise]. *)
Lemma get_summarization_prompt_unknown text max_length (style : list N) :
  SUMMARIZATION_TEMPLATES !! style = None ->
  get_summarization_prompt text max_length style =
  get_summarization_prompt text max_length (lit "concise").
Proof.
  intros H. unfold get_summarization_prompt. rewrite H.
  replace (SUMMARIZATION_TEMPLATES !! lit "concise") with (Some concise)
    by (symmetry; apply lookup_insert_eq).
  reflexivity.
Qed.

Lemma get_summarization_prompt_parts text max_length (style : list N) :
  exists template,
    (template = concise \/ template = detailed \/ template = bullet_points) /\
    let '(head, before, after, middle, closing) := prompt_parts template in
    get_summarization_prompt text max_length style =
    Ok (head ++ length_line before after max_length ++ middle ++ text ++
        closing).
Proof.
  destruct (templates_lookup style) as [[-> H]|[[-> H]|[[-> H]|(_ & _ & _ & H)]]].
  - exists concise. split; [tauto|].
    unfold get_summarization_prompt, getitem. rewrite H. rewrite H.
    cbn [prompt_parts concise keep_block]. f_equal.
    apply render_summarization.
  - exists detailed. split; [tauto|].
    unfold get_summarization_prompt, getitem. rewrite H. rewrite H.
    cbn [prompt_parts detailed keep_block]. f_equal.
    apply render_summarization.
  - exists bullet_points. split; [tauto|].
    unfold get_summarization_prompt, getitem. rewrite H. rewrite H.
    cbn [prompt_parts bullet_points limit_block]. f_equal.
    apply render_summarization.
  - exists concise. split; [tauto|].
    rewrite get_summarization_prompt_unknown by exact H.
    unfold get_summarization_prompt, getitem.
    replace (SUMMARIZATION_TEMPLATES !! lit "concise") with (Some concise)
      by (symmetry; apply lookup_insert_eq).
    replace (SUMMARIZATION_TEMPLATES !! lit "concise") with (Some concise)
      by (symmetry; apply lookup_insert_eq).
    cbn [prompt_parts concise keep_block]. f_equal.
    apply render_summarization.
Qed.

End Prompts.

(** ** C5 and C6: the length line and the style fallback *)

Section PromptClaims.

Lemma contains_length_line head before after rest b0 a0 key1 key2 (s : list N) :
  before = b0 ++ key1 -> after = key2 ++ a0 ->
  contains (key1 ++ s ++ key2) (head ++ (before ++ s ++ after) ++ rest) = true.
Proof.
  intros -> ->.
  replace (head ++ ((b0 ++ key1) ++ s ++ key2 ++ a0) ++ rest)
    with ((head ++ b0) ++ (key1 ++ s ++ key2) ++ (a0 ++ rest))
    by (rewrite <- !app_assoc; reflexivity).
  apply contains_intro.
Qed.

Lemma newline_not_in_approximately : ~ In 10%N (lit "approximately").
Proof. cbv. intuition discriminate. Qed.

Lemma no_length_line_without_max_length text (style : list N) :
  exists prompt,
    get_summarization_prompt text None style = Ok prompt /\
    contains (lit "approximately") prompt = contains (lit "approximately") text.
Proof.
  destruct (get_summarization_prompt_parts text None style)
    as (template & [-> | [-> | ->]] & E);
    cbn [prompt_parts concise detailed bullet_points keep_block limit_block
         length_line] in E;
    rewrite E; eexists; (split; [reflexivity|]);
    rewrite app_nil_l, app_assoc.
  all: apply (contains_between_fixed _ 10%N);
    [ vm_compute; reflexivity | vm_compute; reflexivity | discriminate
    | exact newline_not_in_approximately
    | vm_compute; reflexivity | vm_compute; reflexivity ].
Qed.

Lemma length_line_with_max_length text (style : list N) (n : Z) :
  n <> 0%Z ->
  exists prompt,
    get_summarization_prompt text (Some n) style = Ok prompt /\
    contains (lit "approximately " ++ str_of_int n ++ lit " words") prompt
    = true.
Proof.
  intros Hn.
  destruct (get_summarization_prompt_parts text (Some n) style)
    as (template & [-> | [-> | ->]] & E);
    cbn [prompt_parts concise detailed bullet_points keep_block limit_block
         length_line] in E;
    rewrite (proj2 (Z.eqb_neq n 0) Hn) in E;
    rewrite E; eexists; (split; [reflexivity|]).
  - apply (contains_length_line _ _ _ _
             (lines [blank; "- Keep the summary to "]) (lines [" or less"; blank]));
      vm_compute; reflexivity.
  - apply (contains_length_line _ _ _ _
             (lines [blank; "- Keep the summary to "]) (lines [" or less"; blank]));
      vm_compute; reflexivity.
  - apply (contains_length_line _ _ _ _
             (lines [blank; "- Limit to "])
             (lines [" total across all bullet points"; blank]));
      vm_compute; reflexivity.
Qed.

(** C5, as the code has it.  Without [max_length] the prompt gains no
    length line: the word "approximately", which the length line of
    each of the three templates carries, occurs in the prompt only if it
    occurs in the caller's text.  With a [max_length] other than zero
    the prompt contains "approximately N words", N being the decimal
    text of the integer. *)
Theorem length_line_follows_max_length text (style : list N) (n : Z) :
  n <> 0%Z ->
  (exists prompt,
     get_summarization_prompt text None style = Ok prompt /\
     contains (lit "approximately") prompt
     = contains (lit "approximately") text) /\
  (exists prompt,
     get_summarization_prompt text (Some n) style = Ok prompt /\
     contains (lit "approximately " ++ str_of_int n ++ lit " words") prompt
     = true /\
     contains (str_of_int n) prompt = true).
Proof.
  intros Hn. split.
  - apply no_length_line_without_max_length.
  - destruct (length_line_with_max_length text style n Hn) as (p & E & H).
    exists p. repeat split; try assumption.
    apply contains_inv in H as (a & b & ->).
    replace (a ++ (lit "approximately " ++ str_of_int n ++ lit " words") ++ b)
      with ((a ++ lit "approximately ") ++ str_of_int n ++ (lit " words" ++ b))
      by (rewrite <- !app_assoc; reflexivity).
    apply contains_intro.
Qed.

Lemma length_line_follows_max_length_witness :
  (exists prompt,
     get_summarization_prompt (lit "This is a test document.") None
       (lit "detailed") = Ok prompt /\
     contains (lit "approximately") prompt
     = contains (lit "approximately") (lit "This is a test document.")) /\
  (exists prompt,
     get_summarization_prompt (lit "This is a test document.") (Some 50%Z)
       (lit "detailed") = Ok prompt /\
     contains (lit "approximately " ++ str_of_int 50 ++ lit " words") prompt
     = true /\
     contains (str_of_int 50) prompt = true).
Proof.
  apply (length_line_follows_max_length
           (lit "This is a test document.") (lit "detailed") 50%Z).
  lia.
Defined.

(** C5 as stated fails at the provided integer 0: the test of
    [{% if max_length %}] is false for it, so the prompt has no length
    line and does not contain the integer. *)
Lemma max_length_zero_is_not_rendered :
  exists prompt,
    get_summarization_prompt (lit "Doc.") (Some 0%Z) (lit "concise")
    = Ok prompt /\
    contains (str_of_int 0) prompt = false /\
    contains (lit "approximately") prompt = false.
Proof.
  eexists. split; [reflexivity|]. split; vm_compute; reflexivity.
Qed.

(** C6.  A style outside the three known ones gives exactly the prompt
    of [concise], and the call returns a prompt instead of raising. *)
Theorem unknown_style_renders_as_concise text max_length (style : list N) :
  style <> lit "concise" -> style <> lit "detailed" ->
  style <> lit "bullet_points" ->
  get_summarization_prompt text max_length style
  = get_summarization_prompt text max_length (lit "concise") /\
  exists prompt, get_summarization_prompt text max_length style = Ok prompt.
Proof.
  intros H1 H2 H3.
  destruct (templates_lookup style)
    as [[-> _]|[[-> _]|[[-> _]|(_ & _ & _ & H)]]]; try congruence.
  split.
  - apply get_summarization_prompt_unknown, H.
  - destruct (get_summarization_prompt_parts text max_length style)
      as (template & _ & E).
    destruct (prompt_parts template) as [[[[h b] a] m] c].
    eexists. exact E.
Qed.

Lemma unknown_style_renders_as_concise_witness :
  get_summarization_prompt (lit "This is a test document.") None
    (lit "invalid_style")
  = get_summarization_prompt (lit "This is a test document.") None
      (lit "concise") /\
  exists prompt,
    get_summarization_prompt (lit "This is a test document.") None
      (lit "invalid_style") = Ok prompt.
Proof.
  apply (unknown_style_renders_as_concise
           (lit "This is a test document.") None (lit "invalid_style"));
    vm_compute; discriminate.
Defined.

End PromptClaims.

(** ** C1 and C9: text extraction *)

Section Extraction.

Import PdfProcessor.

Variable PdfReader : list Byte.byte -> attempt Reader.

Lemma page_loop_app page_num reader_pages text_content :
  page_loop page_num reader_pages text_content =
  text_content ++ page_loop page_num reader_pages [].
Proof.
  revert page_num text_content.
  induction reader_pages as [|page rest IH]; intros page_num text_content.
  - simpl. rewrite app_nil_r. reflexivity.
  - destruct page as [text|msg]; simpl.
    + destruct (truthy (strip text)).
      * rewrite (IH _ (text_content ++ _)), (IH _ [_]).
        rewrite <- app_assoc. reflexivity.
      * apply IH.
    + apply IH.
Qed.

(** The loop appends one block for each page that counts, and nothing
    for the others, raising or not. *)
Lemma page_loop_length page_num reader_pages text_content :
  length (page_loop page_num reader_pages text_content) =
  (length text_content + pages_with_text reader_pages)%nat.
Proof.
  unfold pages_with_text.
  revert page_num text_content.
  induction reader_pages as [|page rest IH]; intros page_num text_content.
  - simpl. lia.
  - destruct page as [text|msg]; simpl.
    + destruct (truthy (strip text)); simpl.
      * rewrite IH, length_app. simpl. lia.
      * apply IH.
    + apply IH.
Qed.

Lemma pages_with_text_zero reader_pages :
  Forall (fun page => yields_text page = false) reader_pages ->
  pages_with_text reader_pages = 0%nat.
Proof.
  unfold pages_with_text.
  induction 1 as [|page rest H _ IH]; [reflexivity|].
  simpl. rewrite H. exact IH.
Qed.

Lemma pages_with_text_pos reader_pages :
  Exists (fun page => yields_text page = true) reader_pages ->
  (0 < pages_with_text reader_pages)%nat.
Proof.
  unfold pages_with_text.
  induction 1 as [page rest H|page rest _ IH]; simpl.
  - rewrite H. simpl. lia.
  - destruct (yields_text page); simpl; lia.
Qed.

(** [extract_text_from_bytes] in terms of the body of its [try]. *)
Lemma extract_text_from_bytes_eq pdf_bytes log :
  extract_text_from_bytes PdfReader pdf_bytes log =
  (match extract_text_body PdfReader pdf_bytes with
   | Ok v => Ok v
   | Raise (PDFProcessingError msg) => Raise (PDFProcessingError msg)
   | Raise e =>
       Raise (PDFProcessingError
                (lit "Failed to extract text from PDF: " ++ exn_str e))
   end, log ++ [PdfOpen pdf_bytes]).
Proof.
  unfold extract_text_from_bytes, try_except, bind, emit, lift, raise.
  destruct (extract_text_body PdfReader pdf_bytes) as [v|[msg|sc d|msg]];
    reflexivity.
Qed.

(** The body on a document that opens and lists its pages. *)
Lemma extract_text_body_opened pdf_bytes reader reader_pages :
  PdfReader pdf_bytes = Returns reader ->
  pages reader = Returns reader_pages ->
  extract_text_body PdfReader pdf_bytes =
  match page_loop 0 reader_pages [] with
  | [] => Raise NoText
  | text_content =>
      Ok (join [10%N; 10%N] text_content,
          <["text_length" := PyInt (len (join [10%N; 10%N] text_content))]>
            (<["total_pages" := PyInt (Z.of_nat (length reader_pages))]>
               (<["pages_processed" := PyInt (Z.of_nat (length text_content))]>
                  (_extract_metadata reader))))
  end.
Proof.
  intros Hopen Hpages. unfold extract_text_body. rewrite Hopen, Hpages.
  destruct (page_loop 0 reader_pages []); reflexivity.
Qed.

(** C1, as the code has it.  On a document that opens, a page counts
    when its extraction returns text that is not empty after stripping.
    If no page counts, [extract_text_from_bytes] fails with the no-text
    error; if some page counts, it succeeds and [pages_processed] is the
    number of pages that count.  Pages whose extraction raised are among
    those that do not count: they are skipped, and the error is not
    propagated. *)
Theorem extraction_counts_pages_with_text pdf_bytes reader reader_pages log :
  PdfReader pdf_bytes = Returns reader ->
  pages reader = Returns reader_pages ->
  (Forall (fun page => yields_text page = false) reader_pages ->
   fst (extract_text_from_bytes PdfReader pdf_bytes log) = Raise NoText) /\
  (Exists (fun page => yields_text page = true) reader_pages ->
   exists full_text metadata,
     fst (extract_text_from_bytes PdfReader pdf_bytes log)
     = Ok (full_text, metadata) /\
     metadata !! "pages_processed"
     = Some (PyInt (Z.of_nat (pages_with_text reader_pages))) /\
     metadata !! "total_pages"
     = Some (PyInt (Z.of_nat (length reader_pages)))).
Proof.
  intros Hopen Hpages.
  rewrite extract_text_from_bytes_eq.
  rewrite (extract_text_body_opened _ _ _ Hopen Hpages).
  pose proof (page_loop_length 0 reader_pages []) as Hlen.
  simpl in Hlen.
  split.
  - intros Hall. rewrite (pages_with_text_zero _ Hall) in Hlen.
    destruct (page_loop 0 reader_pages []); [reflexivity | discriminate].
  - intros Hex. apply pages_with_text_pos in Hex.
    destruct (page_loop 0 reader_pages []) as [|block blocks] eqn:E.
    + simpl in Hlen. lia.
    + eexists _, _. split; [reflexivity|].
      rewrite <- Hlen. split.
      * rewrite lookup_insert_ne by discriminate.
        rewrite lookup_insert_ne by discriminate.
        apply lookup_insert_eq.
      * rewrite lookup_insert_ne by discriminate.
        apply lookup_insert_eq.
Qed.

Lemma _extract_metadata_raises reader msg key :
  metadata reader = Raises msg -> In key optional_fields ->
  _extract_metadata reader !! key = Some PyNone.
Proof.
  intros Hmeta Hkey. unfold _extract_metadata. rewrite Hmeta.
  unfold optional_fields in Hkey. simpl in Hkey.
  repeat (destruct Hkey as [<-|Hkey]; [vm_compute; reflexivity|]).
  contradiction.
Qed.

(** C9.  When the read of the metadata raises, the seven optional fields
    are [None], and the extraction is not affected: whenever the same
    pages with any other outcome [m] of the metadata read give a text,
    the call still returns that text, with the optional fields [None]. *)
Theorem metadata_failure_is_swallowed pdf_bytes reader msg log :
  PdfReader pdf_bytes = Returns reader ->
  metadata reader = Raises msg ->
  (forall key, In key optional_fields ->
     _extract_metadata reader !! key = Some PyNone) /\
  (forall m text md,
     extract_text_body
       (fun _ => Returns {| metadata := m; pages := pages reader |}) pdf_bytes
     = Ok (text, md) ->
     exists md',
       fst (extract_text_from_bytes PdfReader pdf_bytes log) = Ok (text, md') /\
       forall key, In key optional_fields -> md' !! key = Some PyNone).
Proof.
  intros Hopen Hmeta. split.
  - intros key. apply _extract_metadata_raises with (msg := msg). exact Hmeta.
  - intros m text md Hother.
    rewrite extract_text_from_bytes_eq.
    unfold extract_text_body in Hother |- *. rewrite Hopen.
    cbn [pages] in Hother.
    destruct (pages reader) as [reader_pages|msg']; [|discriminate].
    destruct (page_loop 0 reader_pages []) as [|block blocks];
      [discriminate|].
    injection Hother as <- _.
    eexists. split; [reflexivity|].
    intros key Hkey.
    assert (Hne : key <> "text_length" /\ key <> "total_pages" /\
                  key <> "pages_processed").
    { unfold optional_fields in Hkey. simpl in Hkey.
      repeat (destruct Hkey as [<-|Hkey];
              [repeat split; discriminate|]).
      contradiction. }
    destruct Hne as (H1 & H2 & H3).
    rewrite !lookup_insert_ne by congruence.
    apply _extract_metadata_raises with (msg := msg); assumption.
Qed.

End Extraction.

(** Scenario C of the specification: three pages, the second of which
    raises. *)
Lemma extraction_counts_pages_with_text_witness :
  let reader_pages :=
    [ Returns (lit "First page."); Raises (lit "broken content stream");
      Returns (lit "Third page.") ] in
  let reader :=
    {| PdfProcessor.metadata := Returns None;
       PdfProcessor.pages := Returns reader_pages |} in
  (Forall (fun page => yields_text page = false) reader_pages ->
   fst (PdfProcessor.extract_text_from_bytes (fun _ => Returns reader) [] [])
   = Raise NoText) /\
  (Exists (fun page => yields_text page = true) reader_pages ->
   exists full_text metadata,
     fst (PdfProcessor.extract_text_from_bytes (fun _ => Returns reader) [] [])
     = Ok (full_text, metadata) /\
     metadata !! "pages_processed"
     = Some (PyInt (Z.of_nat (pages_with_text reader_pages))) /\
     metadata !! "total_pages"
     = Some (PyInt (Z.of_nat (length reader_pages)))).
Proof.
  intros reader_pages reader.
  apply (extraction_counts_pages_with_text
           (fun _ => Returns reader) [] reader reader_pages []);
    reflexivity.
Defined.

(** C1 as stated fails on a page whose text is a single space: that text
    is not empty, yet the page is not counted and the call fails with the
    no-text error. *)
Lemma whitespace_page_is_not_counted :
  let reader :=
    {| PdfProcessor.metadata := Returns None;
       PdfProcessor.pages := Returns [Returns (lit " ")] |} in
  (exists text,
     In (Returns text) [Returns (lit " ")] /\ text <> []) /\
  fst (PdfProcessor.extract_text_from_bytes (fun _ => Returns reader) [] [])
  = Raise NoText.
Proof.
  split.
  - exists (lit " "). split; [left; reflexivity | discriminate].
  - reflexivity.
Qed.

Lemma metadata_failure_is_swallowed_witness :
  let reader :=
    {| PdfProcessor.metadata := Raises (lit "bad /Info dictionary");
       PdfProcessor.pages := Returns [Returns (lit "Only page.")] |} in
  (forall key, In key optional_fields ->
     PdfProcessor._extract_metadata reader !! key = Some PyNone) /\
  (forall m text md,
     PdfProcessor.extract_text_body
       (fun _ => Returns {| PdfProcessor.metadata := m;
                            PdfProcessor.pages := PdfProcessor.pages reader |})
       []
     = Ok (text, md) ->
     exists md',
       fst (PdfProcessor.extract_text_from_bytes (fun _ => Returns reader) [] [])
       = Ok (text, md') /\
       forall key, In key optional_fields -> md' !! key = Some PyNone).
Proof.
  intros reader.
  apply (metadata_failure_is_swallowed
           (fun _ => Returns reader) [] reader (lit "bad /Info dictionary") []);
    reflexivity.
Defined.

(** ** C3: the model gateway *)

Section Stripping.

Lemma lstrip_head s :
  match lstrip s with
  | [] => True
  | c :: _ => isspace c = false
  end.
Proof.
  induction s as [|c s IH]; simpl; [exact I|].
  destruct (isspace c) eqn:E; [exact IH | exact E].
Qed.

Lemma lstrip_suffix s : exists spaces, s = spaces ++ lstrip s.
Proof.
  induction s as [|c s [spaces IH]]; simpl.
  - exists []. reflexivity.
  - destruct (isspace c).
    + exists (c :: spaces). simpl. f_equal. exact IH.
    + exists []. reflexivity.
Qed.

Lemma rstrip_prefix s : exists spaces, s = rstrip s ++ spaces.
Proof.
  unfold rstrip. destruct (lstrip_suffix (rev s)) as [spaces E].
  exists (rev spaces).
  rewrite <- rev_app_distr, <- E, rev_involutive. reflexivity.
Qed.

(** [s.strip()] has no white space at either end. *)
Lemma strip_trimmed s : trimmed (strip s).
Proof.
  unfold trimmed, strip. split.
  - destruct (rstrip_prefix (lstrip s)) as [spaces E].
    pose proof (lstrip_head s) as H. rewrite E in H.
    destruct (rstrip (lstrip s)); [exact I | exact H].
  - unfold rstrip. rewrite rev_involutive. apply lstrip_head.
Qed.

End Stripping.

Section Gateway.

Variable settings : Config.Settings.
Variable generate_content : list N -> float -> Z -> attempt (list N).

(** [generate_text] in terms of the completion of the remote model. *)
Lemma generate_text_eq prompt temperature max_tokens log :
  GeminiClient.generate_text settings generate_content
    prompt temperature max_tokens log =
  let temp := default (Config.temperature settings) temperature in
  let max_tok := default (Config.max_tokens settings) max_tokens in
  (match generate_content prompt temp max_tok with
   | Raises msg =>
       Raise (Exception (lit "Failed to generate text: " ++ msg))
   | Returns [] =>
       Raise (Exception (lit "Failed to generate text: " ++
                         lit "Empty response from Gemini API"))
   | Returns text => Ok (strip text)
   end, log ++ [GenerateContent prompt temp max_tok]).
Proof.
  unfold GeminiClient.generate_text, try_except, bind, emit, raise, ret.
  cbn zeta.
  destruct (generate_content _ _ _) as [[|c text]|msg]; reflexivity.
Qed.

(** A failing completion is reported with its reason. *)
Lemma generate_text_failure prompt temperature max_tokens log reason :
  failure_reason
    (generate_content prompt
       (default (Config.temperature settings) temperature)
       (default (Config.max_tokens settings) max_tokens)) = Some reason ->
  fst (GeminiClient.generate_text settings generate_content
         prompt temperature max_tokens log)
  = Raise (Exception (lit "Failed to generate text: " ++ reason)).
Proof.
  intros H. rewrite generate_text_eq. cbn zeta.
  destruct (generate_content _ _ _) as [[|c text]|msg]; simpl in H |- *;
    congruence.
Qed.

(** What [generate_text] returns is the stripped completion, which has no
    white space at either end. *)
Lemma generate_text_trimmed prompt temperature max_tokens log text :
  fst (GeminiClient.generate_text settings generate_content
         prompt temperature max_tokens log) = Ok text ->
  trimmed text.
Proof.
  rewrite generate_text_eq. cbn zeta.
  destruct (generate_content _ _ _) as [[|c completion]|msg]; simpl;
    intros H; try discriminate.
  injection H as <-. apply strip_trimmed.
Qed.

End Gateway.

(** C3 at a completion made of white space only.  The test
    [if not response.text] sees a string that is not empty, so no error
    is raised, and [response.text.strip()] is returned: the empty
    string. *)
Theorem generate_text_returns_empty_string
  (settings : Config.Settings) (prompt : list N)
  (temperature : option float) (max_tokens : option Z) (log : list event) :
  fst (GeminiClient.generate_text settings
         (fun _ _ _ => Returns [32%N; 10%N])
         prompt temperature max_tokens log)
  = Ok [].
Proof. rewrite generate_text_eq. reflexivity. Qed.

(** ** The endpoints *)

Section Endpoints.

Variable settings : Config.Settings.
Variable generate_content : list N -> float -> Z -> attempt (list N).
Variable PdfReader : list Byte.byte -> attempt PdfProcessor.Reader.
Variable unicode_lower : N -> list N.

Lemma get_summarization_prompt_ok text max_length (style : list N) :
  exists prompt, get_summarization_prompt text max_length style = Ok prompt.
Proof.
  destruct (get_summarization_prompt_parts text max_length style)
    as (template & _ & E).
  destruct (prompt_parts template) as [[[[h b] a] m] c].
  eexists. exact E.
Qed.

Lemma generate_text_outcome prompt temperature max_tokens log :
  GeminiClient.generate_text settings generate_content
    prompt temperature max_tokens log =
  (completion_outcome
     (generate_content prompt
        (default (Config.temperature settings) temperature)
        (default (Config.max_tokens settings) max_tokens)),
   log ++ [GenerateContent prompt
             (default (Config.temperature settings) temperature)
             (default (Config.max_tokens settings) max_tokens)]).
Proof.
  rewrite generate_text_eq. cbn zeta. unfold completion_outcome.
  destruct (generate_content _ _ _) as [[|c text]|msg]; reflexivity.
Qed.

(** The client's [summarize_text]: one call of the model, on the prompt
    of the request. *)
Lemma client_summarize_text_eq text max_length (style : list N) log :
  exists prompt,
    get_summarization_prompt text max_length style = Ok prompt /\
    GeminiClient.summarize_text settings generate_content
      text max_length style log =
    (completion_outcome
       (generate_content prompt 0x1.3333333333333p-2%float
          (Config.max_tokens settings)),
     log ++ [GenerateContent prompt 0x1.3333333333333p-2%float
               (Config.max_tokens settings)]).
Proof.
  destruct (get_summarization_prompt_ok text max_length style) as [prompt E].
  exists prompt. split; [exact E|].
  unfold GeminiClient.summarize_text, bind, lift. rewrite E.
  apply generate_text_outcome.
Qed.

Lemma client_answer_question_eq question context include_sources log :
  GeminiClient.answer_question settings generate_content
    question context include_sources log =
  (completion_outcome
     (generate_content (get_rag_prompt question context include_sources)
        0.5%float (Config.max_tokens settings)),
   log ++ [GenerateContent (get_rag_prompt question context include_sources)
             0.5%float (Config.max_tokens settings)]).
Proof. unfold GeminiClient.answer_question. apply generate_text_outcome. Qed.

(** The gateway raises nothing but [Exception]. *)
Lemma completion_outcome_raise completion e :
  completion_outcome completion = Raise e ->
  exists reason,
    failure_reason completion = Some reason /\
    e = Exception (lit "Failed to generate text: " ++ reason).
Proof.
  destruct completion as [[|c text]|msg]; simpl; intros H;
    try discriminate; injection H as <-; eexists; split; reflexivity.
Qed.

Lemma validate_pdf_eq pdf_bytes log :
  PdfProcessor.validate_pdf PdfReader pdf_bytes log =
  (Ok match PdfReader pdf_bytes with
      | Returns reader =>
          match PdfProcessor.pages reader with
          | Returns _ => true
          | Raises _ => false
          end
      | Raises _ => false
      end, log ++ [PdfOpen pdf_bytes]).
Proof.
  unfold PdfProcessor.validate_pdf, bind, emit, ret.
  destruct (PdfReader pdf_bytes) as [reader|msg]; [|reflexivity].
  destruct (PdfProcessor.pages reader); reflexivity.
Qed.

(** The text extractor raises nothing but [PDFProcessingError]. *)
Lemma extract_text_from_bytes_raise pdf_bytes log e :
  fst (PdfProcessor.extract_text_from_bytes PdfReader pdf_bytes log) = Raise e ->
  exists msg, e = PDFProcessingError msg.
Proof.
  rewrite extract_text_from_bytes_eq. simpl.
  destruct (PdfProcessor.extract_text_body PdfReader pdf_bytes)
    as [v|[msg|sc d|msg]]; intros H; try discriminate;
    injection H as <-; eexists; reflexivity.
Qed.

Lemma client_summarize_text_outcome text max_length (style : list N) log :
  GeminiClient.summarize_text settings generate_content
    text max_length style log =
  (completion_outcome
     (generate_content (summarization_prompt text max_length style)
        summarization_temperature (Config.max_tokens settings)),
   log ++ [GenerateContent (summarization_prompt text max_length style)
             summarization_temperature (Config.max_tokens settings)]).
Proof.
  destruct (client_summarize_text_eq text max_length style log)
    as (prompt & E & H).
  unfold summarization_prompt. rewrite E. exact H.
Qed.

(** [POST /summarize] after validation. *)
Lemma summarize_text_eq request log :
  let text := SummarizeRequest.text request in
  let prompt :=
    summarization_prompt text (SummarizeRequest.max_length request)
      (Main.str_or (default [] (SummarizeRequest.style request))
                   (lit "concise")) in
  Main.summarize_text settings generate_content request log =
  (match completion_outcome
           (generate_content prompt summarization_temperature
              (Config.max_tokens settings)) with
   | Ok summary =>
       Ok {| SummarizeResponse.summary := summary;
             SummarizeResponse.original_length := len text;
             SummarizeResponse.summary_length := len summary;
             SummarizeResponse.compression_ratio :=
               if (0 <? len text)%Z
               then Main.truediv (len summary) (len text)
               else 0%float;
             SummarizeResponse.source_type := lit "text";
             SummarizeResponse.pdf_metadata := None |}
   | Raise e =>
       Raise (HTTPException 500 (lit "Summarization failed: " ++ exn_str e))
   end,
   log ++ [GenerateContent prompt summarization_temperature
             (Config.max_tokens settings)]).
Proof.
  cbn zeta. unfold Main.summarize_text, try_except, bind, raise, ret.
  rewrite client_summarize_text_outcome.
  destruct (completion_outcome _); reflexivity.
Qed.

(** [POST /query] after validation. *)
Lemma query_document_eq request log :
  let include_sources :=
    default false (QueryRequest.include_sources request) in
  let prompt :=
    get_rag_prompt (QueryRequest.question request)
      (QueryRequest.context request) include_sources in
  Main.query_document settings generate_content request log =
  (match completion_outcome
           (generate_content prompt 0.5%float (Config.max_tokens settings)) with
   | Ok answer =>
       Ok {| QueryResponse.answer := answer;
             QueryResponse.confidence := None;
             QueryResponse.sources :=
               if negb include_sources then None else Some [];
             QueryResponse.source_type := lit "text";
             QueryResponse.pdf_metadata := None |}
   | Raise e =>
       Raise (HTTPException 500 (lit "Query processing failed: " ++ exn_str e))
   end,
   log ++ [GenerateContent prompt 0.5%float (Config.max_tokens settings)]).
Proof.
  cbn zeta. unfold Main.query_document, try_except, bind, raise, ret.
  rewrite client_answer_question_eq.
  destruct (completion_outcome _); reflexivity.
Qed.

(** [POST /summarize-pdf] *)
Lemma summarize_pdf_eq file max_length (style : list N) log :
  let pdf_content := Main.read file in
  Main.summarize_pdf settings generate_content PdfReader unicode_lower
    file max_length style log =
  if negb (has_pdf_suffix unicode_lower (Main.filename file))
  then (Raise (HTTPException 400 (lit "Only PDF files are supported")), log)
  else if negb (valid_pdf PdfReader pdf_content)
  then (Raise (HTTPException 400 (lit "Invalid PDF file")),
        log ++ [PdfOpen pdf_content])
  else
    match extraction_outcome PdfReader pdf_content with
    | Raise e =>
        (Raise (HTTPException 400 (lit "PDF processing failed: " ++ exn_str e)),
         (log ++ [PdfOpen pdf_content]) ++ [PdfOpen pdf_content])
    | Ok (text, pdf_metadata) =>
        let prompt :=
          summarization_prompt text max_length
            (Main.str_or style (lit "concise")) in
        (match completion_outcome
                 (generate_content prompt summarization_temperature
                    (Config.max_tokens settings)) with
         | Ok summary =>
             Ok {| SummarizeResponse.summary := summary;
                   SummarizeResponse.original_length := len text;
                   SummarizeResponse.summary_length := len summary;
                   SummarizeResponse.compression_ratio :=
                     if (0 <? len text)%Z
                     then Main.truediv (len summary) (len text)
                     else 0%float;
                   SummarizeResponse.source_type := lit "pdf";
                   SummarizeResponse.pdf_metadata := Some pdf_metadata |}
         | Raise e =>
             Raise (HTTPException 500
                      (lit "PDF summarization failed: " ++ exn_str e))
         end,
         ((log ++ [PdfOpen pdf_content]) ++ [PdfOpen pdf_content]) ++
         [GenerateContent prompt summarization_temperature
            (Config.max_tokens settings)])
    end.
Proof.
  cbn zeta. unfold Main.summarize_pdf, try_except, has_pdf_suffix.
  destruct (endswith _ _); [|reflexivity].
  cbn [negb]. unfold bind at 1. rewrite validate_pdf_eq.
  fold (valid_pdf PdfReader (Main.read file)).
  destruct (valid_pdf _ _); [|reflexivity].
  cbn [negb]. unfold bind at 1. rewrite extract_text_from_bytes_eq.
  fold (extraction_outcome PdfReader (Main.read file)).
  pose proof (extract_text_from_bytes_raise (Main.read file) log)
    as Hraise.
  rewrite extract_text_from_bytes_eq in Hraise.
  fold (extraction_outcome PdfReader (Main.read file)) in Hraise.
  simpl in Hraise.
  destruct (extraction_outcome _ _) as [[text pdf_metadata]|e].
  - cbn [fst snd]. unfold bind, ret.
    rewrite client_summarize_text_outcome.
    destruct (completion_outcome _) as [summary|e] eqn:E; [reflexivity|].
    apply completion_outcome_raise in E as (reason & _ & ->). reflexivity.
  - destruct (Hraise e eq_refl) as [msg ->]. reflexivity.
Qed.

(** [POST /query-pdf] *)
Lemma query_pdf_eq file question include_sources log :
  let pdf_content := Main.read file in
  Main.query_pdf settings generate_content PdfReader unicode_lower
    file question include_sources log =
  if negb (truthy (strip question))
  then (Raise (HTTPException 400 (lit "Question cannot be empty")), log)
  else if negb (has_pdf_suffix unicode_lower (Main.filename file))
  then (Raise (HTTPException 400 (lit "Only PDF files are supported")), log)
  else if negb (valid_pdf PdfReader pdf_content)
  then (Raise (HTTPException 400 (lit "Invalid PDF file")),
        log ++ [PdfOpen pdf_content])
  else
    match extraction_outcome PdfReader pdf_content with
    | Raise e =>
        (Raise (HTTPException 400 (lit "PDF processing failed: " ++ exn_str e)),
         (log ++ [PdfOpen pdf_content]) ++ [PdfOpen pdf_content])
    | Ok (text, pdf_metadata) =>
        let prompt := get_rag_prompt question text include_sources in
        (match completion_outcome
                 (generate_content prompt 0.5%float
                    (Config.max_tokens settings)) with
         | Ok answer =>
             Ok {| QueryResponse.answer := answer;
                   QueryResponse.confidence := None;
                   QueryResponse.sources :=
                     if negb include_sources then None else Some [];
                   QueryResponse.source_type := lit "pdf";
                   QueryResponse.pdf_metadata := Some pdf_metadata |}
         | Raise e =>
             Raise (HTTPException 500
                      (lit "PDF query processing failed: " ++ exn_str e))
         end,
         ((log ++ [PdfOpen pdf_content]) ++ [PdfOpen pdf_content]) ++
         [GenerateContent prompt 0.5%float (Config.max_tokens settings)])
    end.
Proof.
  cbn zeta. unfold Main.query_pdf, try_except, has_pdf_suffix.
  destruct (truthy (strip question)); [|reflexivity].
  cbn [negb].
  destruct (endswith _ _); [|reflexivity].
  cbn [negb]. unfold bind at 1. rewrite validate_pdf_eq.
  fold (valid_pdf PdfReader (Main.read file)).
  destruct (valid_pdf _ _); [|reflexivity].
  cbn [negb]. unfold bind at 1. rewrite extract_text_from_bytes_eq.
  fold (extraction_outcome PdfReader (Main.read file)).
  pose proof (extract_text_from_bytes_raise (Main.read file) log)
    as Hraise.
  rewrite extract_text_from_bytes_eq in Hraise.
  fold (extraction_outcome PdfReader (Main.read file)) in Hraise.
  simpl in Hraise.
  destruct (extraction_outcome _ _) as [[text pdf_metadata]|e].
  - cbn [fst snd]. unfold bind, ret.
    rewrite client_answer_question_eq.
    destruct (completion_outcome _) as [answer|e] eqn:E; [reflexivity|].
    apply completion_outcome_raise in E as (reason & _ & ->). reflexivity.
  - destruct (Hraise e eq_refl) as [msg ->]. reflexivity.
Qed.

(** A body that passes validation gives a request with its text. *)
Lemma validate_summarize_valid b request :
  validate_summarize b = Valid request ->
  SummarizeRequest.text request = value_of (SummarizeBody.text b).
Proof.
  unfold validate_summarize.
  destruct (_ ++ _); intros H; [|discriminate].
  injection H as <-. reflexivity.
Qed.

Lemma validate_query_valid b request :
  validate_query b = Valid request ->
  default false (QueryRequest.include_sources request)
  = sources_requested (Main.PostQuery b).
Proof.
  unfold validate_query.
  destruct (_ ++ _); intros H; [|discriminate].
  injection H as <-. simpl.
  destruct (QueryBody.include_sources b); reflexivity.
Qed.

Lemma metrics_of_response text summary source_type pdf_metadata :
  metrics_of text
    {| SummarizeResponse.summary := summary;
       SummarizeResponse.original_length := len text;
       SummarizeResponse.summary_length := len summary;
       SummarizeResponse.compression_ratio :=
         if (0 <? len text)%Z
         then Main.truediv (len summary) (len text)
         else 0%float;
       SummarizeResponse.source_type := source_type;
       SummarizeResponse.pdf_metadata := pdf_metadata |}.
Proof.
  unfold metrics_of. cbn.
  repeat split.
  - intros H. apply Z.ltb_lt in H. rewrite H. reflexivity.
  - intros H. rewrite H. reflexivity.
Qed.

(** C2.  A summarize request that is answered with a summary: the
    response has the length of the resolved text, the length of the
    summary, and as ratio their quotient when the former is positive and
    zero when it is zero. *)
Theorem summarize_response_metrics req log r :
  fst (Main.app settings generate_content PdfReader unicode_lower req log)
  = {| Main.status_code := 200; Main.content := Main.SummarizeJSON r |} ->
  exists text, resolved_text PdfReader req = Some text /\ metrics_of text r.
Proof.
  destruct req as [b|b|file max_length style|file question include_sources];
    cbn [Main.app resolved_text].
  - unfold Main.post_summarize.
    destruct (validate_summarize b) as [request|fields] eqn:V;
      [|discriminate].
    apply validate_summarize_valid in V. rewrite <- V.
    unfold Main.respond. rewrite summarize_text_eq. cbn zeta.
    destruct (completion_outcome _) as [summary|e]; cbn; intros H;
      [|discriminate].
    injection H as <-. eexists. split; [reflexivity|].
    apply metrics_of_response.
  - unfold Main.post_query.
    destruct (validate_query b) as [request|fields]; [|discriminate].
    unfold Main.respond. rewrite query_document_eq. cbn zeta.
    destruct (completion_outcome _); cbn; discriminate.
  - unfold Main.post_summarize_pdf, Main.respond.
    rewrite summarize_pdf_eq. cbn zeta.
    rewrite extract_text_from_bytes_eq.
    fold (extraction_outcome PdfReader (Main.read file)). cbn [fst].
    destruct (negb (has_pdf_suffix _ _)); [discriminate|].
    destruct (negb (valid_pdf _ _)); [discriminate|].
    destruct (extraction_outcome _ _) as [[text pdf_metadata]|e];
      [|discriminate].
    destruct (completion_outcome _) as [summary|e]; cbn; intros H;
      [|discriminate].
    injection H as <-. eexists. split; [reflexivity|].
    apply metrics_of_response.
  - unfold Main.post_query_pdf, Main.respond.
    rewrite query_pdf_eq. cbn zeta.
    destruct (negb (truthy _)); [discriminate|].
    destruct (negb (has_pdf_suffix _ _)); [discriminate|].
    destruct (negb (valid_pdf _ _)); [discriminate|].
    destruct (extraction_outcome _ _) as [[text pdf_metadata]|e];
      [|discriminate].
    destruct (completion_outcome _); cbn; discriminate.
Qed.

(** C7.  A query request that is answered: [sources] is the empty list
    when sources were requested and [None] when they were not. *)
Theorem query_response_sources req log r :
  fst (Main.app settings generate_content PdfReader unicode_lower req log)
  = {| Main.status_code := 200; Main.content := Main.QueryJSON r |} ->
  QueryResponse.sources r
  = if sources_requested req then Some [] else None.
Proof.
  destruct req as [b|b|file max_length style|file question include_sources];
    cbn [Main.app].
  - unfold Main.post_summarize.
    destruct (validate_summarize b) as [request|fields]; [|discriminate].
    unfold Main.respond. rewrite summarize_text_eq. cbn zeta.
    destruct (completion_outcome _); cbn; discriminate.
  - unfold Main.post_query.
    destruct (validate_query b) as [request|fields] eqn:V; [|discriminate].
    apply validate_query_valid in V. rewrite <- V.
    unfold Main.respond. rewrite query_document_eq. cbn zeta.
    destruct (completion_outcome _) as [answer|e]; cbn; intros H;
      [|discriminate].
    injection H as <-. cbn.
    destruct (default false _); reflexivity.
  - unfold Main.post_summarize_pdf, Main.respond.
    rewrite summarize_pdf_eq. cbn zeta.
    destruct (negb (has_pdf_suffix _ _)); [discriminate|].
    destruct (negb (valid_pdf _ _)); [discriminate|].
    destruct (extraction_outcome _ _) as [[text pdf_metadata]|e];
      [|discriminate].
    destruct (completion_outcome _); cbn; discriminate.
  - unfold Main.post_query_pdf, Main.respond.
    rewrite query_pdf_eq. cbn zeta.
    destruct (negb (truthy _)); [discriminate|].
    destruct (negb (has_pdf_suffix _ _)); [discriminate|].
    destruct (negb (valid_pdf _ _)); [discriminate|].
    destruct (extraction_outcome _ _) as [[text pdf_metadata]|e];
      [|discriminate].
    destruct (completion_outcome _) as [answer|e]; cbn; intros H;
      [|discriminate].
    injection H as <-. cbn.
    destruct include_sources; reflexivity.
Qed.

Lemma completion_outcome_failure completion reason :
  failure_reason completion = Some reason ->
  completion_outcome completion
  = Raise (Exception (lit "Failed to generate text: " ++ reason)).
Proof.
  destruct completion as [[|c text]|msg]; simpl; intros H;
    try discriminate; injection H as <-; reflexivity.
Qed.

(** C8, as the code has it.  When the last call of a request is a call of
    the model and that call fails, the response is a 500 whose detail is
    the endpoint's text followed by the error of the gateway, which ends
    with the reason of the failure.  [settings] is arbitrary: the detail
    is the same whether [debug] is set or not. *)
Theorem generation_failure_detail req resp events prompt temp max_tok reason :
  Main.app settings generate_content PdfReader unicode_lower req [] = (resp, events) ->
  last events = Some (GenerateContent prompt temp max_tok) ->
  failure_reason (generate_content prompt temp max_tok) = Some reason ->
  resp
  = {| Main.status_code := 500;
       Main.content :=
         Main.DetailJSON
           (failure_prefix req ++ lit "Failed to generate text: " ++ reason) |}.
Proof.
  destruct req as [b|b|file max_length style|file question include_sources];
    cbn [Main.app failure_prefix].
  - unfold Main.post_summarize.
    destruct (validate_summarize b) as [request|fields].
    + unfold Main.respond. rewrite summarize_text_eq. cbn zeta.
      destruct (completion_outcome _) as [summary|e] eqn:E;
        intros H Hlast Hfail; injection H as <- <-;
        injection Hlast as <- <- <-;
        rewrite (completion_outcome_failure _ _ Hfail) in E;
        [discriminate|].
      injection E as <-. reflexivity.
    + intros H Hlast. injection H as _ <-. discriminate.
  - unfold Main.post_query.
    destruct (validate_query b) as [request|fields].
    + unfold Main.respond. rewrite query_document_eq. cbn zeta.
      destruct (completion_outcome _) as [answer|e] eqn:E;
        intros H Hlast Hfail; injection H as <- <-;
        injection Hlast as <- <- <-;
        rewrite (completion_outcome_failure _ _ Hfail) in E;
        [discriminate|].
      injection E as <-. reflexivity.
    + intros H Hlast. injection H as _ <-. discriminate.
  - unfold Main.post_summarize_pdf, Main.respond.
    rewrite summarize_pdf_eq. cbn zeta.
    destruct (negb (has_pdf_suffix _ _));
      [intros H Hlast; injection H as _ <-; discriminate|].
    destruct (negb (valid_pdf _ _));
      [intros H Hlast; injection H as _ <-; discriminate|].
    destruct (extraction_outcome _ _) as [[text pdf_metadata]|e];
      [|intros H Hlast; injection H as _ <-; discriminate].
    destruct (completion_outcome _) as [summary|e] eqn:E;
      intros H Hlast Hfail; injection H as <- <-;
      injection Hlast as <- <- <-;
      rewrite (completion_outcome_failure _ _ Hfail) in E;
      [discriminate|].
    injection E as <-. reflexivity.
  - unfold Main.post_query_pdf, Main.respond.
    rewrite query_pdf_eq. cbn zeta.
    destruct (negb (truthy _));
      [intros H Hlast; injection H as _ <-; discriminate|].
    destruct (negb (has_pdf_suffix _ _));
      [intros H Hlast; injection H as _ <-; discriminate|].
    destruct (negb (valid_pdf _ _));
      [intros H Hlast; injection H as _ <-; discriminate|].
    destruct (extraction_outcome _ _) as [[text pdf_metadata]|e];
      [|intros H Hlast; injection H as _ <-; discriminate].
    destruct (completion_outcome _) as [answer|e] eqn:E;
      intros H Hlast Hfail; injection H as <- <-;
      injection Hlast as <- <- <-;
      rewrite (completion_outcome_failure _ _ Hfail) in E;
      [discriminate|].
    injection E as <-. reflexivity.
Qed.

(** C10, as the code has it.  [/summarize-pdf] answers with the rejection
    "Only PDF files are supported" exactly when the lower-cased name does
    not end with ".pdf"; [/query-pdf] does so exactly when, in addition,
    the question is not empty after stripping, for it tests the question
    first.  The name "REPORT.PDF" passes the test. *)
Theorem pdf_suffix_gate :
  (forall file max_length style log,
     fst (Main.app settings generate_content PdfReader unicode_lower
            (Main.PostSummarizePdf file max_length style) log)
     = only_pdf_rejection <->
     endswith (lower unicode_lower (Main.filename file)) (lit ".pdf") = false) /\
  (forall file question include_sources log,
     fst (Main.app settings generate_content PdfReader unicode_lower
            (Main.PostQueryPdf file question include_sources) log)
     = only_pdf_rejection <->
     truthy (strip question) = true /\
     endswith (lower unicode_lower (Main.filename file)) (lit ".pdf") = false) /\
  endswith (lower unicode_lower (lit "REPORT.PDF")) (lit ".pdf") = true.
Proof.
  unfold only_pdf_rejection. split; [|split].
  - intros file max_length style log. cbn [Main.app].
    unfold Main.post_summarize_pdf, Main.respond.
    rewrite summarize_pdf_eq. cbn zeta. unfold has_pdf_suffix.
    destruct (endswith _ _); cbn [negb]; [|split; reflexivity].
    split; [|discriminate].
    destruct (negb (valid_pdf _ _));
      [intros H; cbv in H; discriminate H|].
    destruct (extraction_outcome _ _) as [[text pdf_metadata]|e];
      [|intros H; injection H as H; cbv in H; discriminate H].
    destruct (completion_outcome _); discriminate.
  - intros file question include_sources log. cbn [Main.app].
    unfold Main.post_query_pdf, Main.respond.
    rewrite query_pdf_eq. cbn zeta. unfold has_pdf_suffix.
    destruct (truthy (strip question)); cbn [negb].
    + destruct (endswith _ _); cbn [negb]; [|split; [split|]; reflexivity].
      split; [|intros [_ H]; discriminate H].
      destruct (negb (valid_pdf _ _));
        [intros H; cbv in H; discriminate H|].
      destruct (extraction_outcome _ _) as [[text pdf_metadata]|e];
        [|intros H; injection H as H; cbv in H; discriminate H].
      destruct (completion_outcome _); discriminate.
    + split; [intros H; cbv in H; discriminate H|].
      intros [H _]. discriminate H.
  - reflexivity.
Qed.

Lemma required_str_spec name lo hi f :
  (str_within lo hi f /\ required_str name lo hi f = []) \/
  (~ str_within lo hi f /\ required_str name lo hi f = [name]).
Proof.
  unfold str_within, required_str.
  destruct f as [| |s].
  - right. split; [intros (s & E & _); discriminate | reflexivity].
  - right. split; [intros (s & E & _); discriminate | reflexivity].
  - destruct ((lo <=? len s)%Z && (len s <=? hi)%Z) eqn:E.
    + left. split; [|reflexivity]. exists s. split; [reflexivity|].
      apply andb_prop in E as [E1 E2]. lia.
    + right. split; [|reflexivity]. intros (s' & E' & H).
      injection E' as <-.
      apply andb_false_iff in E as [E|E]; lia.
Qed.

Lemma optional_int_spec name lo hi f :
  (int_within lo hi f /\ Models.optional_int name lo hi f = []) \/
  (~ int_within lo hi f /\ Models.optional_int name lo hi f = [name]).
Proof.
  unfold int_within, Models.optional_int.
  destruct f as [| |n].
  - left. split; [intros n E; discriminate | reflexivity].
  - left. split; [intros n E; discriminate | reflexivity].
  - destruct ((lo <=? n)%Z && (n <=? hi)%Z) eqn:E.
    + left. split; [|reflexivity]. intros n' E'. injection E' as <-.
      apply andb_prop in E as [E1 E2]. lia.
    + right. split; [|reflexivity]. intros H.
      specialize (H n eq_refl).
      apply andb_false_iff in E as [E|E]; lia.
Qed.

(** C4, as the code has it.  A body of [/summarize] or [/query] with a
    field that breaks its constraint (a required string that is missing
    or has not 1 to 50,000 characters, 1 to 1,000 for the question; a
    [max_length] outside 10 to 1000) is answered with 422 and the fields
    that break theirs, and no call leaves the process. *)
Theorem invalid_body_is_rejected req log :
  (exists name, violates req name) ->
  exists fields,
    Main.app settings generate_content PdfReader unicode_lower req log
    = ({| Main.status_code := 422;
          Main.content := Main.ValidationJSON fields |}, log) /\
    forall name, In name fields <-> violates req name.
Proof.
  destruct req as [b|b|file max_length style|file question include_sources];
    cbn [Main.app violates]; intros [name0 Hv]; try contradiction.
  - unfold Main.post_summarize, validate_summarize.
    destruct (required_str_spec "text" 1 50000 (SummarizeBody.text b))
      as [[Ht ->]|[Ht ->]];
      destruct (optional_int_spec "max_length" 10 1000
                  (SummarizeBody.max_length b)) as [[Hm ->]|[Hm ->]];
      cbn [List.app]; try tauto;
      (eexists; split; [reflexivity|]); intros name; simpl;
      intuition congruence.
  - unfold Main.post_query, validate_query.
    destruct (required_str_spec "question" 1 1000 (QueryBody.question b))
      as [[Hq ->]|[Hq ->]];
      destruct (required_str_spec "context" 1 50000 (QueryBody.context b))
        as [[Hc ->]|[Hc ->]];
      cbn [List.app]; try tauto;
      (eexists; split; [reflexivity|]); intros name; simpl;
      intuition congruence.
Qed.

End Endpoints.

(** ** The claims at concrete requests *)

(** Scenario A: a summary of 14 characters for a text of 500. *)
Lemma summarize_response_metrics_witness :
  exists text,
    resolved_text Stubs.no_pdf Stubs.scenario_a = Some text /\
    metrics_of text
      {| SummarizeResponse.summary := lit "Short summary.";
         SummarizeResponse.original_length := 500;
         SummarizeResponse.summary_length := 14;
         SummarizeResponse.compression_ratio := 0x1.cac083126e979p-6%float;
         SummarizeResponse.source_type := lit "text";
         SummarizeResponse.pdf_metadata := None |}.
Proof.
  apply (summarize_response_metrics Config.defaults
           (Stubs.answers (lit "Short summary.")) Stubs.no_pdf
           Stubs.ascii_only Stubs.scenario_a []).
  vm_compute. reflexivity.
Defined.

(** Scenario E: sources requested, none given. *)
Lemma query_response_sources_witness :
  QueryResponse.sources
    {| QueryResponse.answer := lit "The unknown.";
       QueryResponse.confidence := None;
       QueryResponse.sources := Some [];
       QueryResponse.source_type := lit "text";
       QueryResponse.pdf_metadata := None |}
  = if sources_requested Stubs.scenario_e then Some [] else None.
Proof.
  apply (query_response_sources Config.defaults
           (Stubs.answers (lit "The unknown.")) Stubs.no_pdf
           Stubs.ascii_only Stubs.scenario_e []).
  vm_compute. reflexivity.
Defined.

(** A failing model behind [/summarize], with [debug] off. *)
Lemma generation_failure_detail_witness :
  fst (Main.app Stubs.production (Stubs.fails (lit "quota exceeded"))
         Stubs.no_pdf Stubs.ascii_only Stubs.scenario_a [])
  = {| Main.status_code := 500;
       Main.content :=
         Main.DetailJSON
           (failure_prefix Stubs.scenario_a ++
            lit "Failed to generate text: " ++ lit "quota exceeded") |}.
Proof.
  apply (generation_failure_detail Stubs.production
           (Stubs.fails (lit "quota exceeded")) Stubs.no_pdf Stubs.ascii_only
           Stubs.scenario_a _
           (snd (Main.app Stubs.production (Stubs.fails (lit "quota exceeded"))
                   Stubs.no_pdf Stubs.ascii_only Stubs.scenario_a []))
           (summarization_prompt (repeat 97%N 500) (Some 50%Z) (lit "concise"))
           summarization_temperature 2048%Z (lit "quota exceeded"));
    vm_compute; reflexivity.
Defined.

(** C8 as stated fails with [debug] off: the detail of the 500 still
    carries the reason of the failure, and is not the generic message. *)
Lemma debug_off_detail_has_reason :
  Config.debug Stubs.production = false /\
  exists detail,
    fst (Main.app Stubs.production (Stubs.fails (lit "quota exceeded"))
           Stubs.no_pdf Stubs.ascii_only Stubs.scenario_a [])
    = {| Main.status_code := 500; Main.content := Main.DetailJSON detail |} /\
    contains (lit "quota exceeded") detail = true /\
    detail <> lit "An unexpected error occurred".
Proof.
  split; [reflexivity|].
  eexists. split; [vm_compute; reflexivity|].
  split; [vm_compute; reflexivity | vm_compute; discriminate].
Qed.

(** Scenario B: the empty text is rejected, and nothing is called. *)
Lemma invalid_body_is_rejected_witness :
  exists fields,
    Main.app Config.defaults (Stubs.answers (lit "Short summary."))
      Stubs.no_pdf Stubs.ascii_only Stubs.scenario_b []
    = ({| Main.status_code := 422;
          Main.content := Main.ValidationJSON fields |}, []) /\
    forall name, In name fields <-> violates Stubs.scenario_b name.
Proof.
  apply (invalid_body_is_rejected Config.defaults
           (Stubs.answers (lit "Short summary.")) Stubs.no_pdf
           Stubs.ascii_only Stubs.scenario_b []).
  exists "text". left. split; [reflexivity|].
  intros (s & E & H). injection E as <-. unfold len in H. simpl in H. lia.
Defined.

(** C4 as stated fails on a text that is a single space: it is empty
    after stripping, yet the body passes validation and the model is
    called. *)
Lemma whitespace_text_is_summarized :
  strip (lit " ") = [] /\
  exists r prompt temp max_tok,
    Main.app Config.defaults (Stubs.answers (lit "Short summary."))
      Stubs.no_pdf Stubs.ascii_only Stubs.one_space []
    = ({| Main.status_code := 200; Main.content := Main.SummarizeJSON r |},
       [GenerateContent prompt temp max_tok]).
Proof.
  split; [reflexivity|].
  eexists _, _, _, _. vm_compute. reflexivity.
Qed.

(** C10 as stated fails on [/query-pdf] when the question is blank: the
    name does not end with ".pdf", yet the rejection is the one of the
    question. *)
Lemma blank_question_precedes_suffix_gate :
  endswith (lower Stubs.ascii_only (lit "notes.txt")) (lit ".pdf") = false /\
  fst (Main.app Config.defaults (Stubs.answers (lit "Short summary."))
         Stubs.no_pdf Stubs.ascii_only Stubs.blank_question [])
  = {| Main.status_code := 400;
       Main.content := Main.DetailJSON (lit "Question cannot be empty") |} /\
  fst (Main.app Config.defaults (Stubs.answers (lit "Short summary."))
         Stubs.no_pdf Stubs.ascii_only Stubs.blank_question [])
  <> only_pdf_rejection.
Proof.
  split; [reflexivity|]. split; [reflexivity|].
  vm_compute. discriminate.
Qed.

(** ** The tests of the repository and the scenarios, evaluated *)

(** [test_get_summarization_prompt_concise] *)
Example test_get_summarization_prompt_concise :
  get_summarization_prompt (lit "This is a test document.") (Some 50%Z)
    (lit "concise")
  = Ok (lines
          [ blank;
            "You are an expert text summarizer. Your task is to create a concise, accurate summary of the provided text.";
            blank;
            "Instructions:";
            "- Focus on the main ideas and key points";
            "- Maintain the original meaning and context";
            "- Use clear, professional language";
            "- Avoid unnecessary details or repetition";
            blank;
            "- Keep the summary to approximately 50 words or less";
            blank;
            blank;
            "Text to summarize:";
            "This is a test document.";
            blank;
            "Summary:" ]).
Proof. vm_compute. reflexivity. Qed.

(** [test_get_rag_prompt]: the prompt ends with the label of the answer. *)
Example test_get_rag_prompt :
  endswith
    (get_rag_prompt (lit "What is this about?")
       (lit "This is a test document about AI.") false)
    (lines [blank; "Question: What is this about?"; blank; blank; "Answer:";
            blank])
  = true.
Proof. vm_compute. reflexivity. Qed.

(** [test_extract_text_from_bytes_success] *)
Example test_extract_text_from_bytes_success :
  let info : gmap string (list N) :=
    <["/Title" := lit "Test Document"]>
      (<["/Author" := lit "Test Author"]> ∅) in
  let reader :=
    {| PdfProcessor.metadata := Returns (Some info);
       PdfProcessor.pages := Returns [Returns (lit "Sample PDF text content")] |} in
  match fst (PdfProcessor.extract_text_from_bytes (Stubs.opens reader) [] [])
  with
  | Ok (text, metadata) =>
      text = lines ["--- Page 1 ---"; "Sample PDF text content"] /\
      metadata !! "title" = Some (PyStr (lit "Test Document")) /\
      metadata !! "author" = Some (PyStr (lit "Test Author")) /\
      metadata !! "subject" = Some PyNone /\
      metadata !! "creation_date" = Some (PyStr []) /\
      metadata !! "pages_processed" = Some (PyInt 1) /\
      metadata !! "total_pages" = Some (PyInt 1) /\
      metadata !! "text_length" = Some (PyInt 38)
  | Raise _ => False
  end.
Proof. vm_compute. repeat split. Qed.

(** Scenario C: the text has the markers of pages 1 and 3 only. *)
Example scenario_c_text :
  let reader :=
    {| PdfProcessor.metadata := Returns None;
       PdfProcessor.pages :=
         Returns [ Returns (lit "First page."); Raises (lit "broken");
                   Returns (lit "  Third page.  ") ] |} in
  match fst (PdfProcessor.extract_text_from_bytes (Stubs.opens reader) [] [])
  with
  | Ok (text, metadata) =>
      text = lines [ "--- Page 1 ---"; "First page."; blank;
                     "--- Page 3 ---"; "Third page." ] /\
      metadata !! "pages_processed" = Some (PyInt 2) /\
      metadata !! "total_pages" = Some (PyInt 3)
  | Raise _ => False
  end.
Proof. vm_compute. repeat split. Qed.

(** Scenario D: an empty completion is an error of the gateway, and the
    caller gets a 500 with a detail. *)
Example scenario_d :
  fst (Main.app Config.defaults (Stubs.answers []) Stubs.no_pdf
         Stubs.ascii_only Stubs.scenario_a [])
  = {| Main.status_code := 500;
       Main.content :=
         Main.DetailJSON
           (lit "Summarization failed: Failed to generate text: Empty response from Gemini API") |}.
Proof. vm_compute. reflexivity. Qed.

(** The lower-cased name of the upload. *)
Example lower_report_pdf :
  lower Stubs.ascii_only (lit "REPORT.PDF") = lit "report.pdf".
Proof. reflexivity. Qed.

Example strip_both_ends :
  strip (lit "  two words  ") = lit "two words".
Proof. reflexivity. Qed.

(* ===================================================================== *)
(** * Further properties *)
(* ===================================================================== *)

(** ** The text extractor *)

Section ExtractorFacts.

Import PdfProcessor.

Variable PdfReader : list Byte.byte -> attempt Reader.

(** The page loop is a comprehension over the numbered pages. *)
Lemma page_loop_blocks page_num reader_pages text_content :
  page_loop page_num reader_pages text_content =
  text_content ++
  omap block_of (zip (seq page_num (length reader_pages)) reader_pages).
Proof.
  revert page_num text_content.
  induction reader_pages as [|page rest IH]; intros page_num text_content.
  - simpl. rewrite app_nil_r. reflexivity.
  - destruct page as [text|msg]; simpl.
    + destruct (truthy (strip text)); rewrite IH.
      * rewrite <- app_assoc. reflexivity.
      * reflexivity.
    + apply IH.
Qed.

Lemma block_of_shape numbered block :
  block_of numbered = Some block ->
  exists rest, block = lit "--- Page " ++ rest.
Proof.
  destruct numbered as [page_num [text|msg]]; simpl; [|discriminate].
  destruct (truthy (strip text)); [|discriminate].
  intros H. injection H as <-. eexists. reflexivity.
Qed.

Lemma omap_block_of_head numbered block blocks :
  omap block_of numbered = block :: blocks ->
  exists rest, block = lit "--- Page " ++ rest.
Proof.
  induction numbered as [|x l IH]; simpl; [discriminate|].
  destruct (block_of x) as [b|] eqn:E; simpl.
  - intros H. injection H as <- _. eapply block_of_shape. exact E.
  - exact IH.
Qed.

Lemma join_not_empty sep block blocks rest :
  block = lit "--- Page " ++ rest -> join sep (block :: blocks) <> [].
Proof.
  intros ->. destruct blocks; simpl; discriminate.
Qed.

Lemma pages_with_text_le reader_pages :
  (pages_with_text reader_pages <= length reader_pages)%nat.
Proof.
  unfold pages_with_text.
  induction reader_pages as [|page rest IH]; simpl; [lia|].
  destruct (yields_text page); simpl; lia.
Qed.

(** X1.  What a successful extraction returns: at least one page and at
    most all of them were processed, the text is not empty, and
    [text_length] is its length. *)
Theorem extraction_success_invariants pdf_bytes log text md :
  fst (extract_text_from_bytes PdfReader pdf_bytes log) = Ok (text, md) ->
  exists processed total,
    md !! "pages_processed" = Some (PyInt processed) /\
    md !! "total_pages" = Some (PyInt total) /\
    md !! "text_length" = Some (PyInt (len text)) /\
    (1 <= processed <= total)%Z /\
    text <> [].
Proof.
  rewrite extract_text_from_bytes_eq. cbn [fst].
  unfold extract_text_body.
  destruct (PdfReader pdf_bytes) as [reader|msg]; [|discriminate].
  destruct (pages reader) as [reader_pages|msg]; [|discriminate].
  pose proof (page_loop_length 0 reader_pages []) as Hlen.
  pose proof (pages_with_text_le reader_pages) as Hle.
  pose proof (page_loop_blocks 0 reader_pages []) as Hblocks.
  destruct (page_loop 0 reader_pages []) as [|block blocks]; [discriminate|].
  intros H. injection H as <- <-.
  exists (Z.of_nat (length (block :: blocks))), (Z.of_nat (length reader_pages)).
  split; [|split; [|split; [|split]]].
  - rewrite !lookup_insert_ne by discriminate. apply lookup_insert_eq.
  - rewrite lookup_insert_ne by discriminate. apply lookup_insert_eq.
  - apply lookup_insert_eq.
  - cbn [length] in Hlen |- *. lia.
  - symmetry in Hblocks. simpl in Hblocks.
    apply omap_block_of_head in Hblocks as [rest ->].
    exact (join_not_empty [10%N; 10%N] _ blocks rest eq_refl).
Qed.

(** X2.  The text of a successful extraction is made of the blocks of
    the pages that count, in ascending page order, each block being the
    marker of the page (numbered from 1) and the stripped text of the
    page, and two newlines between consecutive blocks. *)
Theorem extraction_text_layout pdf_bytes reader reader_pages log text md :
  PdfReader pdf_bytes = Returns reader ->
  pages reader = Returns reader_pages ->
  fst (extract_text_from_bytes PdfReader pdf_bytes log) = Ok (text, md) ->
  text = join [10%N; 10%N] (blocks_of reader_pages).
Proof.
  intros Hopen Hpages.
  rewrite extract_text_from_bytes_eq. cbn [fst].
  rewrite (extract_text_body_opened _ _ _ _ Hopen Hpages).
  unfold blocks_of.
  pose proof (page_loop_blocks 0 reader_pages []) as Hblocks.
  simpl in Hblocks. rewrite <- Hblocks.
  destruct (page_loop 0 reader_pages []); [discriminate|].
  intros H. injection H as <- _. reflexivity.
Qed.

(** X3.  A failed extraction raises a [PDFProcessingError] and nothing
    else: the no-text error, or the error of the library with the text
    "Failed to extract text from PDF: " before it. *)
Theorem extraction_failure_is_wrapped pdf_bytes log e :
  fst (extract_text_from_bytes PdfReader pdf_bytes log) = Raise e ->
  e = NoText \/
  exists reason,
    e = PDFProcessingError (lit "Failed to extract text from PDF: " ++ reason) /\
    (PdfReader pdf_bytes = Raises reason \/
     exists reader,
       PdfReader pdf_bytes = Returns reader /\ pages reader = Raises reason).
Proof.
  rewrite extract_text_from_bytes_eq. cbn [fst].
  unfold extract_text_body.
  destruct (PdfReader pdf_bytes) as [reader|msg].
  - destruct (pages reader) as [reader_pages|msg] eqn:Hpages.
    + destruct (page_loop 0 reader_pages []); [|discriminate].
      intros H. injection H as <-. left. reflexivity.
    + intros H. injection H as <-. right. exists msg.
      split; [reflexivity|]. right. exists reader.
      split; [reflexivity | exact Hpages].
  - intros H. injection H as <-. right. exists msg.
    split; [reflexivity|]. left. reflexivity.
Qed.

(** X4.  [validate_pdf] never raises, and it tells what the extraction
    can do with the same bytes: after [True] the extraction succeeds or
    fails with the no-text error; after [False] it fails with the wrapped
    error of the library. *)
Theorem validate_pdf_predicts_extraction pdf_bytes log log' :
  match fst (validate_pdf PdfReader pdf_bytes log) with
  | Ok true =>
      fst (extract_text_from_bytes PdfReader pdf_bytes log') = Raise NoText \/
      exists text md,
        fst (extract_text_from_bytes PdfReader pdf_bytes log') = Ok (text, md)
  | Ok false =>
      exists reason,
        fst (extract_text_from_bytes PdfReader pdf_bytes log')
        = Raise (PDFProcessingError
                   (lit "Failed to extract text from PDF: " ++ reason))
  | Raise _ => False
  end.
Proof.
  rewrite extract_text_from_bytes_eq. cbn [fst].
  unfold validate_pdf, extract_text_body, bind, emit, ret. cbn.
  destruct (PdfReader pdf_bytes) as [reader|msg]; cbn.
  - destruct (pages reader) as [reader_pages|msg]; cbn.
    + destruct (page_loop 0 reader_pages []).
      * left. reflexivity.
      * right. eexists _, _. reflexivity.
    + eexists. reflexivity.
  - eexists. reflexivity.
Qed.

End ExtractorFacts.

Section ExtractorMetadata.

Import PdfProcessor.

Variable PdfReader : list Byte.byte -> attempt Reader.

(** The dictionary of [_extract_metadata] has the seven optional fields
    as its keys, whatever the document gives. *)
Lemma _extract_metadata_dom reader :
  dom (_extract_metadata reader) = list_to_set (C := gset string) optional_fields.
Proof.
  unfold _extract_metadata.
  destruct (metadata reader) as [[info|]|msg];
    [destruct (bool_decide (info = ∅))|..];
    rewrite ?dom_union_L, !dom_list_to_map_L; cbn [fmap list_fmap fst];
    rewrite ?union_idemp_L; reflexivity.
Qed.

(** X5.  The metadata of a successful extraction has exactly ten keys:
    the seven optional fields, [pages_processed], [total_pages] and
    [text_length]; a lookup of any of them finds a value, and no other
    key is present. *)
Theorem extraction_metadata_keys pdf_bytes log text md key :
  fst (extract_text_from_bytes PdfReader pdf_bytes log) = Ok (text, md) ->
  is_Some (md !! key) <-> In key result_keys.
Proof.
  rewrite extract_text_from_bytes_eq. cbn [fst].
  unfold extract_text_body.
  destruct (PdfReader pdf_bytes) as [reader|msg]; [|discriminate].
  destruct (pages reader) as [reader_pages|msg]; [|discriminate].
  destruct (page_loop 0 reader_pages []) as [|block blocks]; [discriminate|].
  intros H. injection H as _ <-.
  rewrite <- elem_of_dom.
  rewrite !dom_insert_L, _extract_metadata_dom.
  rewrite <- list_elem_of_In.
  rewrite !elem_of_union, !elem_of_singleton, elem_of_list_to_set.
  unfold result_keys, optional_fields. cbn [List.app].
  rewrite !elem_of_cons, elem_of_nil. tauto.
Qed.

(** X6.  The entries of a non-empty information dictionary are carried
    into the metadata of a successful extraction: the title, author,
    subject, creator and producer are the entries of the document or
    [None] where the document has none, and the two dates are strings,
    empty where the document has none. *)
Theorem extraction_carries_document_info pdf_bytes reader info log text md :
  PdfReader pdf_bytes = Returns reader ->
  metadata reader = Returns (Some info) ->
  info <> ∅ ->
  fst (extract_text_from_bytes PdfReader pdf_bytes log) = Ok (text, md) ->
  md !! "title" = Some (get info "/Title") /\
  md !! "author" = Some (get info "/Author") /\
  md !! "subject" = Some (get info "/Subject") /\
  md !! "creator" = Some (get info "/Creator") /\
  md !! "producer" = Some (get info "/Producer") /\
  md !! "creation_date" = Some (PyStr (default [] (info !! "/CreationDate"))) /\
  md !! "modification_date" = Some (PyStr (default [] (info !! "/ModDate"))).
Proof.
  intros Hopen Hmeta Hinfo.
  rewrite extract_text_from_bytes_eq. cbn [fst].
  unfold extract_text_body. rewrite Hopen.
  destruct (pages reader) as [reader_pages|msg]; [|discriminate].
  destruct (page_loop 0 reader_pages []) as [|block blocks]; [discriminate|].
  intros H. injection H as _ <-.
  unfold _extract_metadata. rewrite Hmeta.
  rewrite bool_decide_eq_false_2 by exact Hinfo.
  repeat split; rewrite !lookup_insert_ne by discriminate;
    vm_compute; reflexivity.
Qed.

End ExtractorMetadata.

Lemma succeeded_eta (r : result (list N * gmap string pyval)) :
  succeeded r = true -> r = Ok (extracted_text r, extracted_metadata r).
Proof. destruct r as [[text md]|e]; [reflexivity | discriminate]. Qed.

Lemma extraction_success_invariants_witness :
  let r :=
    fst (PdfProcessor.extract_text_from_bytes (Stubs.opens three_pages) [] [])
  in
  exists processed total,
    extracted_metadata r !! "pages_processed" = Some (PyInt processed) /\
    extracted_metadata r !! "total_pages" = Some (PyInt total) /\
    extracted_metadata r !! "text_length"
    = Some (PyInt (len (extracted_text r))) /\
    (1 <= processed <= total)%Z /\
    extracted_text r <> [].
Proof.
  intros r.
  apply (extraction_success_invariants (Stubs.opens three_pages) [] []
           (extracted_text r) (extracted_metadata r)).
  apply succeeded_eta. vm_compute. reflexivity.
Defined.

Lemma extraction_text_layout_witness :
  extracted_text
    (fst (PdfProcessor.extract_text_from_bytes (Stubs.opens three_pages) [] []))
  = join [10%N; 10%N]
      (blocks_of
         [ Returns (lit "First page."); Raises (lit "broken");
           Returns (lit "  Third page.  ") ]).
Proof.
  apply (extraction_text_layout (Stubs.opens three_pages) [] three_pages _ []
           _
           (extracted_metadata
              (fst (PdfProcessor.extract_text_from_bytes
                      (Stubs.opens three_pages) [] []))));
    [reflexivity | reflexivity | apply succeeded_eta; vm_compute; reflexivity].
Defined.

Lemma extraction_failure_is_wrapped_witness :
  let e :=
    PDFProcessingError
      (lit "Failed to extract text from PDF: EOF marker not found") in
  e = NoText \/
  exists reason,
    e = PDFProcessingError (lit "Failed to extract text from PDF: " ++ reason) /\
    (Stubs.no_pdf [] = Raises reason \/
     exists reader,
       Stubs.no_pdf [] = Returns reader /\
       PdfProcessor.pages reader = Raises reason).
Proof.
  intros e.
  apply (extraction_failure_is_wrapped Stubs.no_pdf [] [] e).
  vm_compute. reflexivity.
Defined.

Lemma extraction_metadata_keys_witness :
  is_Some
    (extracted_metadata
       (fst (PdfProcessor.extract_text_from_bytes
               (Stubs.opens three_pages) [] [])) !! "producer")
  <-> In "producer" result_keys.
Proof.
  apply (extraction_metadata_keys (Stubs.opens three_pages) [] []
           (extracted_text
              (fst (PdfProcessor.extract_text_from_bytes
                      (Stubs.opens three_pages) [] [])))).
  apply succeeded_eta. vm_compute. reflexivity.
Defined.

Lemma extraction_carries_document_info_witness :
  let info : gmap string (list N) :=
    <["/Title" := lit "Test Document"]>
      (<["/CreationDate" := lit "D:20240101"]> ∅) in
  let md :=
    extracted_metadata
      (fst (PdfProcessor.extract_text_from_bytes
              (Stubs.opens three_pages) [] [])) in
  md !! "title" = Some (PdfProcessor.get info "/Title") /\
  md !! "author" = Some (PdfProcessor.get info "/Author") /\
  md !! "subject" = Some (PdfProcessor.get info "/Subject") /\
  md !! "creator" = Some (PdfProcessor.get info "/Creator") /\
  md !! "producer" = Some (PdfProcessor.get info "/Producer") /\
  md !! "creation_date" = Some (PyStr (default [] (info !! "/CreationDate"))) /\
  md !! "modification_date" = Some (PyStr (default [] (info !! "/ModDate"))).
Proof.
  intros info md.
  apply (extraction_carries_document_info (Stubs.opens three_pages) []
           three_pages info []
           (extracted_text
              (fst (PdfProcessor.extract_text_from_bytes
                      (Stubs.opens three_pages) [] []))) md).
  - reflexivity.
  - reflexivity.
  - intros H. apply (f_equal (fun m => m !! "/Title")) in H.
    vm_compute in H. discriminate H.
  - apply succeeded_eta. vm_compute. reflexivity.
Defined.

(** ** The prompts *)

Section PromptFacts.

Lemma endswith_app (before s : list N) : endswith (before ++ s) s = true.
Proof.
  unfold endswith. rewrite rev_app_distr. apply startswith_app.
Qed.

Lemma get_summarization_prompt_for text max_length (style : list N) :
  get_summarization_prompt text max_length style =
  Ok (let '(head, before, after, middle, closing) :=
        prompt_parts (template_for style) in
      head ++ length_line before after max_length ++ middle ++ text ++
      closing).
Proof.
  unfold template_for.
  destruct (templates_lookup style)
    as [[-> H]|[[-> H]|[[-> H]|(H1 & H2 & H3 & H)]]].
  - rewrite decide_False by discriminate.
    rewrite decide_False by discriminate.
    unfold get_summarization_prompt, getitem. rewrite H. rewrite H.
    cbn [prompt_parts concise keep_block]. f_equal.
    apply render_summarization.
  - rewrite decide_True by reflexivity.
    unfold get_summarization_prompt, getitem. rewrite H. rewrite H.
    cbn [prompt_parts detailed keep_block]. f_equal.
    apply render_summarization.
  - rewrite decide_False by discriminate.
    rewrite decide_True by reflexivity.
    unfold get_summarization_prompt, getitem. rewrite H. rewrite H.
    cbn [prompt_parts bullet_points limit_block]. f_equal.
    apply render_summarization.
  - rewrite decide_False by exact H2.
    rewrite decide_False by exact H3.
    rewrite get_summarization_prompt_unknown by exact H.
    unfold get_summarization_prompt, getitem.
    replace (SUMMARIZATION_TEMPLATES !! lit "concise") with (Some concise)
      by (symmetry; apply lookup_insert_eq).
    replace (SUMMARIZATION_TEMPLATES !! lit "concise") with (Some concise)
      by (symmetry; apply lookup_insert_eq).
    cbn [prompt_parts concise keep_block]. f_equal.
    apply render_summarization.
Qed.

Lemma contains_fourth (a b c d e : list N) :
  contains d (a ++ b ++ c ++ d ++ e) = true.
Proof.
  replace (a ++ b ++ c ++ d ++ e) with ((a ++ b ++ c) ++ d ++ e)
    by (rewrite <- !app_assoc; reflexivity).
  apply contains_intro.
Qed.

Lemma endswith_closing (a b c d closing newlines label : list N) :
  closing = newlines ++ label ->
  endswith (a ++ b ++ c ++ d ++ closing) label = true.
Proof.
  intros ->.
  replace (a ++ b ++ c ++ d ++ newlines ++ label)
    with ((a ++ b ++ c ++ d ++ newlines) ++ label)
    by (rewrite <- !app_assoc; reflexivity).
  apply endswith_app.
Qed.

(** X7.  The summarization prompt of every text, length and style has
    the text in it, character for character, and ends with the closing
    label of the style: "Detailed Summary:" for [detailed], the bullet
    label for [bullet_points], "Summary:" for any other style. *)
Theorem summarization_prompt_has_text_and_label text max_length (style : list N) :
  exists prompt,
    get_summarization_prompt text max_length style = Ok prompt /\
    contains text prompt = true /\
    endswith prompt (closing_label style) = true.
Proof.
  rewrite get_summarization_prompt_for.
  unfold template_for, closing_label.
  destruct (decide (style = lit "detailed"));
    [|destruct (decide (style = lit "bullet_points"))];
    cbn [prompt_parts concise detailed bullet_points keep_block limit_block];
    (eexists; split; [reflexivity|]); split;
    try apply contains_fourth;
    apply (endswith_closing _ _ _ _ _ [10%N; 10%N]);
    vm_compute; reflexivity.
Qed.

Lemma contains_app_r (needle a b : list N) :
  contains needle b = true -> contains needle (a ++ b) = true.
Proof.
  intros H. apply contains_inv in H as (x & y & ->).
  rewrite app_assoc. apply contains_intro.
Qed.

Lemma contains_prefix (needle b : list N) : contains needle (needle ++ b) = true.
Proof. apply contains_startswith, startswith_app. Qed.

Lemma startswith_app_l (p s t : list N) :
  startswith p s = true -> startswith p (s ++ t) = true.
Proof.
  intros H. apply startswith_inv in H as [u ->].
  rewrite <- app_assoc. apply startswith_app.
Qed.

Lemma endswith_app_r (a b label : list N) :
  endswith b label = true -> endswith (a ++ b) label = true.
Proof.
  unfold endswith. rewrite rev_app_distr. apply startswith_app_l.
Qed.

(** The prompt of [get_rag_prompt], part by part. *)
Lemma get_rag_prompt_eq question context include_sources :
  get_rag_prompt question context include_sources =
  match RAG_TEMPLATE with
  | [ Data head; If _ [Data refs] _; Data context_label; _;
      Data question_label; _; Data gap; If _ [Data sourced] [Data plain] ] =>
      head ++ (if include_sources then refs else []) ++
      context_label ++ context ++ question_label ++ question ++ gap ++
      (if include_sources then sourced else plain)
  | _ => []
  end.
Proof.
  unfold get_rag_prompt, render, RAG_TEMPLATE.
  cbn [map concat render_node].
  assert (Hq : forall (q c : value) (i : value),
             (<["question" := q]>
                (<["context" := c]>
                   (<["include_sources" := i]> (∅ : gmap string value))))
             !! "question" = Some q)
    by (intros; apply lookup_insert_eq).
  assert (Hc : forall (q c : value) (i : value),
             (<["question" := q]>
                (<["context" := c]>
                   (<["include_sources" := i]> (∅ : gmap string value))))
             !! "context" = Some c)
    by (intros; rewrite lookup_insert_ne by discriminate;
        apply lookup_insert_eq).
  assert (Hi : forall (q c : value) (i : value),
             (<["question" := q]>
                (<["context" := c]>
                   (<["include_sources" := i]> (∅ : gmap string value))))
             !! "include_sources" = Some i)
    by (intros; rewrite !lookup_insert_ne by discriminate;
        apply lookup_insert_eq).
  rewrite Hq, Hc, !Hi. cbn [test output].
  destruct include_sources; cbn [map concat render_node];
    rewrite ?app_nil_r; reflexivity.
Qed.

(** X8.  The prompt of a question has, for every question and context,
    the context right after the line "Context:", then the question right
    after "Question: ", and "Answer:" with a newline at its end; when
    sources are asked for, it also asks to "include source references". *)
Theorem rag_prompt_has_context_and_question question context include_sources :
  let prompt := get_rag_prompt question context include_sources in
  (exists before between after,
     prompt =
     before ++ (lines ["Context:"; blank] ++ context) ++
     between ++ (lit "Question: " ++ question) ++ after) /\
  endswith prompt (lines ["Answer:"; blank]) = true /\
  (if include_sources
   then contains (lit "include source references") prompt
   else true) = true.
Proof.
  intros prompt. subst prompt. rewrite get_rag_prompt_eq.
  cbn [RAG_TEMPLATE].
  change (lines [blank; blank; "Context:"; blank])
    with ([10%N; 10%N] ++ lines ["Context:"; blank]).
  change (lines [blank; blank; "Question: "])
    with ([10%N; 10%N] ++ lit "Question: ").
  split; [|split].
  - match goal with
    | |- exists _ _ _,
          ?h ++ ?r ++ (?n1 ++ _) ++ _ ++ (?n2 ++ _) ++ _ ++ ?g ++ ?y = _ =>
        exists (h ++ r ++ n1), n2, (g ++ y)
    end.
    rewrite <- !app_assoc. reflexivity.
  - do 7 apply endswith_app_r.
    destruct include_sources; vm_compute; reflexivity.
  - destruct include_sources; [|reflexivity].
    do 7 apply contains_app_r. vm_compute. reflexivity.
Qed.

(** X9.  The prompt of [get_qa_prompt] has the question right after
    "Question: " and ends with "Answer:". *)
Theorem qa_prompt_has_question (question : list N) :
  contains (lit "Question: " ++ question) (get_qa_prompt question) = true /\
  endswith (get_qa_prompt question) (lit "Answer:") = true.
Proof.
  assert (E : get_qa_prompt question =
              lines [ blank;
                      "You are a helpful AI assistant. Please answer the following question to the best of your ability.";
                      blank ] ++
              [10%N] ++ (lit "Question: " ++ question) ++
              [10%N; 10%N] ++ lit "Answer:").
  { unfold get_qa_prompt, render, QA_TEMPLATE.
    cbn [map concat render_node].
    rewrite lookup_insert_eq. cbn [output].
    rewrite app_nil_r.
    change (lines [blank;
                   "You are a helpful AI assistant. Please answer the following question to the best of your ability.";
                   blank; "Question: "])
      with (lines [blank;
                   "You are a helpful AI assistant. Please answer the following question to the best of your ability.";
                   blank] ++ [10%N] ++ lit "Question: ").
    rewrite <- !app_assoc. reflexivity. }
  rewrite E. split.
  - do 2 apply contains_app_r. apply contains_prefix.
  - do 3 apply endswith_app_r. apply (endswith_app [10%N; 10%N]).
Qed.

(** X10.  A [max_length] of zero gives the prompt of no [max_length] at
    all, for every text and style. *)
Theorem zero_max_length_is_no_max_length text (style : list N) :
  get_summarization_prompt text (Some 0%Z) style
  = get_summarization_prompt text None style.
Proof.
  rewrite !get_summarization_prompt_for.
  destruct (prompt_parts (template_for style)) as [[[[h b] a] m] c].
  reflexivity.
Qed.

End PromptFacts.

(** ** The routes *)

Section RouteFacts.

Variable settings : Config.Settings.
Variable generate_content : list N -> float -> Z -> attempt (list N).
Variable PdfReader : list Byte.byte -> attempt PdfProcessor.Reader.
Variable unicode_lower : N -> list N.

(** The steps of a request, route by route: validation of a JSON body,
    then the equation of the endpoint. *)
Ltac enter_route :=
  cbn [Main.app];
  unfold Main.post_summarize, Main.post_query, Main.post_summarize_pdf,
    Main.post_query_pdf, Main.respond.

Lemma log_three (log : list event) a b c :
  ((log ++ [a]) ++ [b]) ++ [c] = log ++ [a; b; c].
Proof. rewrite <- !app_assoc. reflexivity. Qed.

Lemma log_two (log : list event) a b : (log ++ [a]) ++ [b] = log ++ [a; b].
Proof. rewrite <- !app_assoc. reflexivity. Qed.

(** X11.  What a request costs.  The events of a request are, in this
    order, at most two openings of the upload (one to validate it, one
    to extract its text) and at most one call of the model; the model is
    called once when the response is a 200 or a 500, and not at all when
    it is a 400 or a 422: there is no retry, and a rejected request never
    reaches the model. *)
Theorem calls_of_a_request req log :
  exists new,
    snd (Main.app settings generate_content PdfReader unicode_lower req log)
    = log ++ new /\
    model_calls new
    = (let status :=
         Main.status_code
           (fst (Main.app settings generate_content PdfReader unicode_lower
                   req log)) in
       if (status =? 200)%Z || (status =? 500)%Z then 1%nat else 0%nat) /\
    (exists opens calls,
       new = opens ++ calls /\
       (opens = [] \/ opens = [PdfOpen (upload_of req)] \/
        opens = [PdfOpen (upload_of req); PdfOpen (upload_of req)]) /\
       (calls = [] \/ exists prompt temp max_tok,
                        calls = [GenerateContent prompt temp max_tok])).
Proof.
  destruct req as [b|b|file max_length style|file question include_sources];
    enter_route; cbn [upload_of].
  - destruct (validate_summarize b) as [request|fields].
    + rewrite summarize_text_eq. cbn zeta.
      eexists. split; [destruct (completion_outcome _); reflexivity|].
      split; [destruct (completion_outcome _); reflexivity|].
      exists [], [GenerateContent
                    (summarization_prompt (SummarizeRequest.text request)
                       (SummarizeRequest.max_length request)
                       (Main.str_or
                          (default [] (SummarizeRequest.style request))
                          (lit "concise")))
                    summarization_temperature (Config.max_tokens settings)].
      split; [reflexivity|]. split; [tauto|]. right. eexists _, _, _.
      reflexivity.
    + exists []. cbn. rewrite app_nil_r. split; [reflexivity|].
      split; [reflexivity|]. exists [], []. tauto.
  - destruct (validate_query b) as [request|fields].
    + rewrite query_document_eq. cbn zeta.
      eexists. split; [destruct (completion_outcome _); reflexivity|].
      split; [destruct (completion_outcome _); reflexivity|].
      exists [], [GenerateContent
                    (get_rag_prompt (QueryRequest.question request)
                       (QueryRequest.context request)
                       (default false (QueryRequest.include_sources request)))
                    0.5%float (Config.max_tokens settings)].
      split; [reflexivity|]. split; [tauto|]. right. eexists _, _, _.
      reflexivity.
    + exists []. cbn. rewrite app_nil_r. split; [reflexivity|].
      split; [reflexivity|]. exists [], []. tauto.
  - rewrite summarize_pdf_eq. cbn zeta.
    destruct (negb (has_pdf_suffix _ _)).
    { exists []. cbn. rewrite app_nil_r. split; [reflexivity|].
      split; [reflexivity|]. exists [], []. tauto. }
    destruct (negb (valid_pdf _ _)).
    { exists [PdfOpen (Main.read file)]. cbn. split; [reflexivity|].
      split; [reflexivity|]. exists [PdfOpen (Main.read file)], [].
      split; [reflexivity|]. tauto. }
    destruct (extraction_outcome _ _) as [[text pdf_metadata]|e].
    + rewrite log_three.
      eexists. split; [destruct (completion_outcome _); reflexivity|].
      split; [destruct (completion_outcome _); reflexivity|].
      exists [PdfOpen (Main.read file); PdfOpen (Main.read file)],
             [GenerateContent
                (summarization_prompt text max_length
                   (Main.str_or style (lit "concise")))
                summarization_temperature (Config.max_tokens settings)].
      split; [reflexivity|]. split; [tauto|]. right. eexists _, _, _.
      reflexivity.
    + rewrite log_two.
      eexists. split; [reflexivity|]. split; [reflexivity|].
      exists [PdfOpen (Main.read file); PdfOpen (Main.read file)], [].
      split; [reflexivity|]. tauto.
  - rewrite query_pdf_eq. cbn zeta.
    destruct (negb (truthy _)).
    { exists []. cbn. rewrite app_nil_r. split; [reflexivity|].
      split; [reflexivity|]. exists [], []. tauto. }
    destruct (negb (has_pdf_suffix _ _)).
    { exists []. cbn. rewrite app_nil_r. split; [reflexivity|].
      split; [reflexivity|]. exists [], []. tauto. }
    destruct (negb (valid_pdf _ _)).
    { exists [PdfOpen (Main.read file)]. cbn. split; [reflexivity|].
      split; [reflexivity|]. exists [PdfOpen (Main.read file)], [].
      split; [reflexivity|]. tauto. }
    destruct (extraction_outcome _ _) as [[text pdf_metadata]|e].
    + rewrite log_three.
      eexists. split; [destruct (completion_outcome _); reflexivity|].
      split; [destruct (completion_outcome _); reflexivity|].
      exists [PdfOpen (Main.read file); PdfOpen (Main.read file)],
             [GenerateContent
                (get_rag_prompt question text include_sources)
                0.5%float (Config.max_tokens settings)].
      split; [reflexivity|]. split; [tauto|]. right. eexists _, _, _.
      reflexivity.
    + rewrite log_two.
      eexists. split; [reflexivity|]. split; [reflexivity|].
      exists [PdfOpen (Main.read file); PdfOpen (Main.read file)], [].
      split; [reflexivity|]. tauto.
Qed.

(** X12.  The parameters of a call of the model are fixed by the route:
    the temperature is 0.3 for a summary and 0.5 for an answer, and the
    token limit is the one of the settings; the temperature of the
    settings is not used. *)
Theorem model_call_parameters req prompt temp max_tok :
  In (GenerateContent prompt temp max_tok)
    (snd (Main.app settings generate_content PdfReader unicode_lower req [])) ->
  temp = route_temperature req /\ max_tok = Config.max_tokens settings.
Proof.
  destruct req as [b|b|file max_length style|file question include_sources];
    enter_route; cbn [route_temperature].
  - destruct (validate_summarize b) as [request|fields]; [|intros []].
    rewrite summarize_text_eq. cbn zeta.
    destruct (completion_outcome _); cbn; intros [H|[]];
      injection H as _ <- <-; split; reflexivity.
  - destruct (validate_query b) as [request|fields]; [|intros []].
    rewrite query_document_eq. cbn zeta.
    destruct (completion_outcome _); cbn; intros [H|[]];
      injection H as _ <- <-; split; reflexivity.
  - rewrite summarize_pdf_eq. cbn zeta.
    destruct (negb (has_pdf_suffix _ _)); [intros []|].
    destruct (negb (valid_pdf _ _)); [cbn; intros [H|[]]; discriminate H|].
    destruct (extraction_outcome _ _) as [[text pdf_metadata]|e];
      [|cbn; intros [H|[H|[]]]; discriminate H].
    destruct (completion_outcome _); cbn; intros [H|[H|[H|[]]]];
      try discriminate H; injection H as _ <- <-; split; reflexivity.
  - rewrite query_pdf_eq. cbn zeta.
    destruct (negb (truthy _)); [intros []|].
    destruct (negb (has_pdf_suffix _ _)); [intros []|].
    destruct (negb (valid_pdf _ _)); [cbn; intros [H|[]]; discriminate H|].
    destruct (extraction_outcome _ _) as [[text pdf_metadata]|e];
      [|cbn; intros [H|[H|[]]]; discriminate H].
    destruct (completion_outcome _); cbn; intros [H|[H|[H|[]]]];
      try discriminate H; injection H as _ <- <-; split; reflexivity.
Qed.

Lemma summarization_prompt_concise_like text max_length (style : list N) :
  style <> lit "detailed" -> style <> lit "bullet_points" ->
  summarization_prompt text max_length style
  = summarization_prompt text max_length (lit "concise").
Proof.
  intros H1 H2. unfold summarization_prompt.
  rewrite !get_summarization_prompt_for. unfold template_for.
  rewrite decide_False by exact H1.
  rewrite decide_False by exact H2.
  rewrite decide_False by discriminate.
  rewrite decide_False by discriminate.
  reflexivity.
Qed.

(** X13.  On [/summarize] the concise style is the default in every way:
    a body whose style is missing, null, empty, "concise" or any name
    other than "detailed" and "bullet_points" gets the response, and
    makes the call of the model, of the same body with the style
    "concise". *)
Theorem concise_is_the_default_style b log :
  concise_like (SummarizeBody.style b) ->
  Main.app settings generate_content PdfReader unicode_lower
    (Main.PostSummarize b) log
  = Main.app settings generate_content PdfReader unicode_lower
      (Main.PostSummarize (with_concise b)) log.
Proof.
  intros Hstyle. enter_route. unfold validate_summarize.
  cbn [with_concise SummarizeBody.text SummarizeBody.max_length
       SummarizeBody.style].
  destruct (_ ++ _); [|reflexivity].
  rewrite !summarize_text_eq. cbn zeta.
  cbn [SummarizeRequest.text SummarizeRequest.max_length
       SummarizeRequest.style].
  assert (E : forall text max_length,
             summarization_prompt text max_length
               (Main.str_or
                  (default [] (optional (Some (lit "concise"))
                                 (SummarizeBody.style b)))
                  (lit "concise"))
             = summarization_prompt text max_length
                 (Main.str_or
                    (default [] (optional (Some (lit "concise"))
                                   (Present (lit "concise"))))
                    (lit "concise"))).
  { intros text max_length.
    destruct (SummarizeBody.style b) as [| |s]; try reflexivity.
    destruct Hstyle as [H1 H2].
    change (summarization_prompt text max_length
              (Main.str_or s (lit "concise"))
            = summarization_prompt text max_length (lit "concise")).
    unfold Main.str_or.
    destruct (truthy s); [|reflexivity].
    apply summarization_prompt_concise_like; assumption. }
  rewrite E. reflexivity.
Qed.

(** The fields that break their constraints are reported, and only
    they. *)
Lemma validate_summarize_cases b :
  (exists request, validate_summarize b = Valid request) /\
  ~ (exists name, violates (Main.PostSummarize b) name) \/
  (exists fields, validate_summarize b = Invalid fields) /\
  (exists name, violates (Main.PostSummarize b) name).
Proof.
  unfold validate_summarize. cbn [violates].
  destruct (required_str_spec "text" 1 50000 (SummarizeBody.text b))
    as [[Ht ->]|[Ht ->]];
    destruct (optional_int_spec "max_length" 10 1000
                (SummarizeBody.max_length b)) as [[Hm ->]|[Hm ->]];
    cbn [List.app].
  - left. split; [eexists; reflexivity|]. intros [name H]. tauto.
  - right. split; [eexists; reflexivity|]. exists "max_length". tauto.
  - right. split; [eexists; reflexivity|]. exists "text". tauto.
  - right. split; [eexists; reflexivity|]. exists "text". tauto.
Qed.

Lemma validate_query_cases b :
  (exists request, validate_query b = Valid request) /\
  ~ (exists name, violates (Main.PostQuery b) name) \/
  (exists fields, validate_query b = Invalid fields) /\
  (exists name, violates (Main.PostQuery b) name).
Proof.
  unfold validate_query. cbn [violates].
  destruct (required_str_spec "question" 1 1000 (QueryBody.question b))
    as [[Hq ->]|[Hq ->]];
    destruct (required_str_spec "context" 1 50000 (QueryBody.context b))
      as [[Hc ->]|[Hc ->]];
    cbn [List.app].
  - left. split; [eexists; reflexivity|]. intros [name H]. tauto.
  - right. split; [eexists; reflexivity|]. exists "context". tauto.
  - right. split; [eexists; reflexivity|]. exists "question". tauto.
  - right. split; [eexists; reflexivity|]. exists "question". tauto.
Qed.

(** X14.  On the two JSON routes, for a body whose fields have their
    declared JSON types, the status is 422 exactly when a field of the
    body breaks its constraint: a body within the constraints is never
    rejected as invalid, whatever the model and the settings are. *)
Theorem status_422_iff_violation b q log :
  (Main.status_code
     (fst (Main.app settings generate_content PdfReader unicode_lower
             (Main.PostSummarize b) log))
   = 422%Z <->
   exists name, violates (Main.PostSummarize b) name) /\
  (Main.status_code
     (fst (Main.app settings generate_content PdfReader unicode_lower
             (Main.PostQuery q) log))
   = 422%Z <->
   exists name, violates (Main.PostQuery q) name).
Proof.
  split; enter_route.
  - destruct (validate_summarize_cases b)
      as [[[request ->] Hno]|[[fields ->] Hyes]].
    + rewrite summarize_text_eq. cbn zeta.
      destruct (completion_outcome _); cbn; split;
        [discriminate | tauto | discriminate | tauto].
    + cbn. tauto.
  - destruct (validate_query_cases q)
      as [[[request ->] Hno]|[[fields ->] Hyes]].
    + rewrite query_document_eq. cbn zeta.
      destruct (completion_outcome _); cbn; split;
        [discriminate | tauto | discriminate | tauto].
    + cbn. tauto.
Qed.

(** X15.  What leaves the four endpoint functions.  Each of them returns
    its response model or raises an [HTTPException]: of status 500 for
    [summarize_text] and [query_document], of status 400 or 500 for
    [summarize_pdf] and [query_pdf].  No [PDFProcessingError] and no
    other exception leaves an endpoint function, whatever the model and
    the PDF library do. *)
Theorem endpoint_outcomes log :
  (forall request,
     http_outcome [500%Z]
       (fst (Main.summarize_text settings generate_content request log))) /\
  (forall request,
     http_outcome [500%Z]
       (fst (Main.query_document settings generate_content request log))) /\
  (forall file max_length style,
     http_outcome [400%Z; 500%Z]
       (fst (Main.summarize_pdf settings generate_content PdfReader
               unicode_lower file max_length style log))) /\
  (forall file question include_sources,
     http_outcome [400%Z; 500%Z]
       (fst (Main.query_pdf settings generate_content PdfReader
               unicode_lower file question include_sources log))).
Proof.
  split; [|split; [|split]].
  - intros request. rewrite summarize_text_eq. cbn zeta.
    destruct (completion_outcome _); cbn; [exact I | left; reflexivity].
  - intros request. rewrite query_document_eq. cbn zeta.
    destruct (completion_outcome _); cbn; [exact I | left; reflexivity].
  - intros file max_length style. rewrite summarize_pdf_eq. cbn zeta.
    destruct (negb (has_pdf_suffix _ _)); [cbn; left; reflexivity|].
    destruct (negb (valid_pdf _ _)); [cbn; left; reflexivity|].
    destruct (extraction_outcome _ _) as [[text pdf_metadata]|e];
      [|cbn; left; reflexivity].
    destruct (completion_outcome _); cbn;
      [exact I | right; left; reflexivity].
  - intros file question include_sources. rewrite query_pdf_eq. cbn zeta.
    destruct (negb (truthy _)); [cbn; left; reflexivity|].
    destruct (negb (has_pdf_suffix _ _)); [cbn; left; reflexivity|].
    destruct (negb (valid_pdf _ _)); [cbn; left; reflexivity|].
    destruct (extraction_outcome _ _) as [[text pdf_metadata]|e];
      [|cbn; left; reflexivity].
    destruct (completion_outcome _); cbn;
      [exact I | right; left; reflexivity].
Qed.

(** After a successful validation the extraction fails with the no-text
    error only. *)
Lemma extraction_outcome_after_validation pdf_bytes e :
  valid_pdf PdfReader pdf_bytes = true ->
  extraction_outcome PdfReader pdf_bytes = Raise e ->
  e = NoText.
Proof.
  unfold valid_pdf, extraction_outcome, PdfProcessor.extract_text_body.
  destruct (PdfReader pdf_bytes) as [reader|msg]; [|discriminate].
  destruct (PdfProcessor.pages reader) as [reader_pages|msg]; [|discriminate].
  intros _.
  destruct (PdfProcessor.page_loop 0 reader_pages []); [|discriminate].
  intros H. injection H as <-. reflexivity.
Qed.

Lemma extraction_outcome_text_length pdf_bytes text md :
  extraction_outcome PdfReader pdf_bytes = Ok (text, md) ->
  md !! "text_length" = Some (PyInt (len text)).
Proof.
  unfold extraction_outcome, PdfProcessor.extract_text_body.
  destruct (PdfReader pdf_bytes) as [reader|msg]; [|discriminate].
  destruct (PdfProcessor.pages reader) as [reader_pages|msg]; [|discriminate].
  destruct (PdfProcessor.page_loop 0 reader_pages []); [discriminate|].
  intros H. injection H as <- <-. apply lookup_insert_eq.
Qed.

(** X16.  A 400 has one of four details: the blank question, the name
    that is no PDF name, the invalid PDF, or the PDF without text.  The
    error "Failed to extract text from PDF" of the extractor never
    reaches a caller, for the upload is validated before its text is
    extracted. *)
Theorem rejections_of_an_upload req log :
  Main.status_code
    (fst (Main.app settings generate_content PdfReader unicode_lower req log))
  = 400%Z ->
  exists detail,
    Main.content
      (fst (Main.app settings generate_content PdfReader unicode_lower
              req log))
    = Main.DetailJSON detail /\
    In detail upload_rejections.
Proof.
  destruct req as [b|b|file max_length style|file question include_sources];
    enter_route.
  - destruct (validate_summarize b) as [request|fields]; [|discriminate].
    rewrite summarize_text_eq. cbn zeta.
    destruct (completion_outcome _); discriminate.
  - destruct (validate_query b) as [request|fields]; [|discriminate].
    rewrite query_document_eq. cbn zeta.
    destruct (completion_outcome _); discriminate.
  - rewrite summarize_pdf_eq. cbn zeta.
    destruct (negb (has_pdf_suffix _ _)).
    { intros _. eexists. split; [reflexivity|]. right; left. reflexivity. }
    destruct (valid_pdf PdfReader (Main.read file)) eqn:V; cbn [negb].
    2:{ intros _. eexists. split; [reflexivity|]. right; right; left.
        reflexivity. }
    destruct (extraction_outcome _ _) as [[text pdf_metadata]|e] eqn:E.
    + destruct (completion_outcome _); discriminate.
    + apply (extraction_outcome_after_validation _ _ V) in E. subst e.
      intros _. eexists. split; [reflexivity|].
      right; right; right; left. vm_compute. reflexivity.
  - rewrite query_pdf_eq. cbn zeta.
    destruct (negb (truthy _)).
    { intros _. eexists. split; [reflexivity|]. left. reflexivity. }
    destruct (negb (has_pdf_suffix _ _)).
    { intros _. eexists. split; [reflexivity|]. right; left. reflexivity. }
    destruct (valid_pdf PdfReader (Main.read file)) eqn:V; cbn [negb].
    2:{ intros _. eexists. split; [reflexivity|]. right; right; left.
        reflexivity. }
    destruct (extraction_outcome _ _) as [[text pdf_metadata]|e] eqn:E.
    + destruct (completion_outcome _); discriminate.
    + apply (extraction_outcome_after_validation _ _ V) in E. subst e.
      intros _. eexists. split; [reflexivity|].
      right; right; right; left. vm_compute. reflexivity.
Qed.

(** X17.  The source of a summary response: for a text, the source type
    "text" and no PDF metadata; for an upload, the source type "pdf" and
    the very metadata that [extract_text_from_bytes] returns for the
    bytes of the upload, beside the text whose length is the
    [original_length] of the response; the [text_length] of that
    metadata is this [original_length]. *)
Theorem summary_response_source req log r :
  fst (Main.app settings generate_content PdfReader unicode_lower req log)
  = {| Main.status_code := 200; Main.content := Main.SummarizeJSON r |} ->
  match req with
  | Main.PostSummarize _ =>
      SummarizeResponse.source_type r = lit "text" /\
      SummarizeResponse.pdf_metadata r = None
  | Main.PostSummarizePdf file _ _ =>
      SummarizeResponse.source_type r = lit "pdf" /\
      exists text md,
        fst (PdfProcessor.extract_text_from_bytes PdfReader (Main.read file) [])
        = Ok (text, md) /\
        SummarizeResponse.pdf_metadata r = Some md /\
        SummarizeResponse.original_length r = len text /\
        md !! "text_length"
        = Some (PyInt (SummarizeResponse.original_length r))
  | _ => False
  end.
Proof.
  destruct req as [b|b|file max_length style|file question include_sources];
    enter_route.
  - destruct (validate_summarize b) as [request|fields]; [|discriminate].
    rewrite summarize_text_eq. cbn zeta.
    destruct (completion_outcome _); cbn; intros H; [|discriminate].
    injection H as <-. split; reflexivity.
  - destruct (validate_query b) as [request|fields]; [|discriminate].
    rewrite query_document_eq. cbn zeta.
    destruct (completion_outcome _); discriminate.
  - rewrite summarize_pdf_eq. cbn zeta.
    rewrite extract_text_from_bytes_eq.
    fold (extraction_outcome PdfReader (Main.read file)). cbn [fst].
    destruct (negb (has_pdf_suffix _ _)); [discriminate|].
    destruct (negb (valid_pdf _ _)); [discriminate|].
    destruct (extraction_outcome _ _) as [[text pdf_metadata]|e] eqn:E;
      [|discriminate].
    destruct (completion_outcome _); cbn; intros H; [|discriminate].
    injection H as <-. split; [reflexivity|].
    exists text, pdf_metadata.
    split; [reflexivity|]. split; [reflexivity|]. split; [reflexivity|].
    apply (extraction_outcome_text_length _ _ _ E).
  - rewrite query_pdf_eq. cbn zeta.
    destruct (negb (truthy _)); [discriminate|].
    destruct (negb (has_pdf_suffix _ _)); [discriminate|].
    destruct (negb (valid_pdf _ _)); [discriminate|].
    destruct (extraction_outcome _ _) as [[text pdf_metadata]|e];
      [|discriminate].
    destruct (completion_outcome _); discriminate.
Qed.

(** X18.  An answer never has a confidence; its source type is "text"
    without PDF metadata for a context given as text, and "pdf" with the
    metadata of the extraction for an upload. *)
Theorem query_response_source req log r :
  fst (Main.app settings generate_content PdfReader unicode_lower req log)
  = {| Main.status_code := 200; Main.content := Main.QueryJSON r |} ->
  QueryResponse.confidence r = None /\
  match req with
  | Main.PostQuery _ =>
      QueryResponse.source_type r = lit "text" /\
      QueryResponse.pdf_metadata r = None
  | Main.PostQueryPdf file _ _ =>
      QueryResponse.source_type r = lit "pdf" /\
      exists text,
        fst (PdfProcessor.extract_text_from_bytes PdfReader (Main.read file) [])
        = Ok (text, default ∅ (QueryResponse.pdf_metadata r)) /\
        is_Some (QueryResponse.pdf_metadata r)
  | _ => False
  end.
Proof.
  destruct req as [b|b|file max_length style|file question include_sources];
    enter_route.
  - destruct (validate_summarize b) as [request|fields]; [|discriminate].
    rewrite summarize_text_eq. cbn zeta.
    destruct (completion_outcome _); discriminate.
  - destruct (validate_query b) as [request|fields]; [|discriminate].
    rewrite query_document_eq. cbn zeta.
    destruct (completion_outcome _); cbn; intros H; [|discriminate].
    injection H as <-. repeat split; reflexivity.
  - rewrite summarize_pdf_eq. cbn zeta.
    destruct (negb (has_pdf_suffix _ _)); [discriminate|].
    destruct (negb (valid_pdf _ _)); [discriminate|].
    destruct (extraction_outcome _ _) as [[text pdf_metadata]|e];
      [|discriminate].
    destruct (completion_outcome _); discriminate.
  - rewrite query_pdf_eq. cbn zeta.
    rewrite extract_text_from_bytes_eq.
    fold (extraction_outcome PdfReader (Main.read file)). cbn [fst].
    destruct (negb (truthy _)); [discriminate|].
    destruct (negb (has_pdf_suffix _ _)); [discriminate|].
    destruct (negb (valid_pdf _ _)); [discriminate|].
    destruct (extraction_outcome _ _) as [[text pdf_metadata]|e];
      [|discriminate].
    destruct (completion_outcome _); cbn; intros H; [|discriminate].
    injection H as <-. split; [reflexivity|]. split; [reflexivity|].
    exists text. split; [reflexivity | eexists; reflexivity].
Qed.

Lemma completion_outcome_trimmed completion text :
  completion_outcome completion = Ok text -> trimmed text.
Proof.
  destruct completion as [[|c s]|msg]; simpl; intros H; try discriminate.
  injection H as <-. apply strip_trimmed.
Qed.

(** X19.  The summary or the answer of every response has no white space
    at its beginning nor at its end. *)
Theorem generated_text_is_trimmed req log :
  match
    Main.content
      (fst (Main.app settings generate_content PdfReader unicode_lower req log))
  with
  | Main.SummarizeJSON r => trimmed (SummarizeResponse.summary r)
  | Main.QueryJSON r => trimmed (QueryResponse.answer r)
  | _ => True
  end.
Proof.
  destruct req as [b|b|file max_length style|file question include_sources];
    enter_route.
  - destruct (validate_summarize b) as [request|fields]; [|exact I].
    rewrite summarize_text_eq. cbn zeta.
    destruct (completion_outcome _) eqn:E; [|exact I].
    cbn. eapply completion_outcome_trimmed. exact E.
  - destruct (validate_query b) as [request|fields]; [|exact I].
    rewrite query_document_eq. cbn zeta.
    destruct (completion_outcome _) eqn:E; [|exact I].
    cbn. eapply completion_outcome_trimmed. exact E.
  - rewrite summarize_pdf_eq. cbn zeta.
    destruct (negb (has_pdf_suffix _ _)); [exact I|].
    destruct (negb (valid_pdf _ _)); [exact I|].
    destruct (extraction_outcome _ _) as [[text pdf_metadata]|e]; [|exact I].
    destruct (completion_outcome _) eqn:E; [|exact I].
    cbn. eapply completion_outcome_trimmed. exact E.
  - rewrite query_pdf_eq. cbn zeta.
    destruct (negb (truthy _)); [exact I|].
    destruct (negb (has_pdf_suffix _ _)); [exact I|].
    destruct (negb (valid_pdf _ _)); [exact I|].
    destruct (extraction_outcome _ _) as [[text pdf_metadata]|e]; [|exact I].
    destruct (completion_outcome _) eqn:E; [|exact I].
    cbn. eapply completion_outcome_trimmed. exact E.
Qed.

Lemma str_within_present lo hi (s : list N) :
  str_within lo hi (Present s) <-> (lo <= len s <= hi)%Z.
Proof.
  unfold str_within. split.
  - intros (s' & E & H). injection E as <-. exact H.
  - intros H. exists s. split; [reflexivity | exact H].
Qed.

Lemma summarize_status_422 b log :
  Main.status_code
    (fst (Main.app settings generate_content PdfReader unicode_lower
            (Main.PostSummarize b) log)) = 422%Z <->
  exists name, violates (Main.PostSummarize b) name.
Proof.
  enter_route.
  destruct (validate_summarize_cases b)
    as [[[request ->] Hno]|[[fields ->] Hyes]].
  - rewrite summarize_text_eq. cbn zeta.
    destruct (completion_outcome _); cbn; split;
      [discriminate | tauto | discriminate | tauto].
  - cbn. tauto.
Qed.

Lemma query_status_422 b log :
  Main.status_code
    (fst (Main.app settings generate_content PdfReader unicode_lower
            (Main.PostQuery b) log)) = 422%Z <->
  exists name, violates (Main.PostQuery b) name.
Proof.
  enter_route.
  destruct (validate_query_cases b)
    as [[[request ->] Hno]|[[fields ->] Hyes]].
  - rewrite query_document_eq. cbn zeta.
    destruct (completion_outcome _); cbn; split;
      [discriminate | tauto | discriminate | tauto].
  - cbn. tauto.
Qed.

(** X20.  The requests of the client of the user interface against the
    validation of the server.  A summary request is answered 422 exactly
    when the text has not 1 to 50,000 characters or the maximum length is
    a number other than zero outside 10 to 1000: a maximum length of zero
    is left out of the request, and the style is never a reason.  A
    query is answered 422 exactly when the question has not 1 to 1,000
    characters or the context has not 1 to 50,000. *)
Theorem client_requests_and_validation
  text max_length (style : list N) question context include_sources log :
  (Main.status_code
     (fst (Main.app settings generate_content PdfReader unicode_lower
             (ApiClient.summarize_text text max_length style) log)) = 422%Z <->
   ~ (1 <= len text <= 50000)%Z \/
   exists n, max_length = Some n /\ n <> 0%Z /\ ~ (10 <= n <= 1000)%Z) /\
  (Main.status_code
     (fst (Main.app settings generate_content PdfReader unicode_lower
             (ApiClient.query_document question context include_sources)
             log)) = 422%Z <->
   ~ (1 <= len question <= 1000)%Z \/ ~ (1 <= len context <= 50000)%Z).
Proof.
  split.
  - unfold ApiClient.summarize_text. cbv zeta.
    pose proof (str_within_present 1 50000 text) as Hs.
    destruct max_length as [n|]; [destruct (Z.eqb_spec n 0) as [->|Hn]|];
      cbn [negb SummarizeBody.text SummarizeBody.max_length
           SummarizeBody.style];
      rewrite summarize_status_422;
      cbn [violates SummarizeBody.text SummarizeBody.max_length];
      unfold int_within.
    + split.
      * intros [name [[_ H]|[_ H]]]; [left; rewrite <- Hs; exact H|].
        exfalso. apply H. intros n E. discriminate E.
      * intros [H|(n & E & Hn & _)]; [|injection E as <-; congruence].
        exists "text". left. split; [reflexivity|]. rewrite Hs. exact H.
    + split.
      * intros [name [[_ H]|[_ H]]]; [left; rewrite <- Hs; exact H|].
        right. exists n. repeat split; try assumption.
        intros Hin. apply H. intros n' E. injection E as <-. exact Hin.
      * intros [H|(n' & E & _ & H)].
        -- exists "text". left. split; [reflexivity|]. rewrite Hs. exact H.
        -- injection E as <-. exists "max_length". right.
           split; [reflexivity|]. intros Hin. apply H.
           apply Hin. reflexivity.
    + split.
      * intros [name [[_ H]|[_ H]]]; [left; rewrite <- Hs; exact H|].
        exfalso. apply H. intros n E. discriminate E.
      * intros [H|(n & E & _)]; [|discriminate E].
        exists "text". left. split; [reflexivity|]. rewrite Hs. exact H.
  - unfold ApiClient.query_document. rewrite query_status_422.
    cbn [violates QueryBody.question QueryBody.context].
    pose proof (str_within_present 1 1000 question) as Hq.
    pose proof (str_within_present 1 50000 context) as Hc.
    split.
    + intros [name [[_ H]|[_ H]]]; tauto.
    + intros [H|H].
      * exists "question". left. split; [reflexivity | tauto].
      * exists "context". right. split; [reflexivity | tauto].
Qed.

End RouteFacts.

Lemma model_call_parameters_witness :
  summarization_temperature = route_temperature Stubs.scenario_a /\
  2048%Z = Config.max_tokens Config.defaults.
Proof.
  apply (model_call_parameters Config.defaults
           (Stubs.answers (lit "Short summary.")) Stubs.no_pdf
           Stubs.ascii_only Stubs.scenario_a
           (summarization_prompt (repeat 97%N 500) (Some 50%Z) (lit "concise"))
           summarization_temperature 2048%Z).
  vm_compute. left. reflexivity.
Defined.

Lemma concise_is_the_default_style_witness :
  let b :=
    {| SummarizeBody.text := Present (lit "This is a test document.");
       SummarizeBody.max_length := Absent;
       SummarizeBody.style := Present (lit "invalid_style") |} in
  Main.app Config.defaults (Stubs.answers (lit "Short summary."))
    Stubs.no_pdf Stubs.ascii_only (Main.PostSummarize b) []
  = Main.app Config.defaults (Stubs.answers (lit "Short summary."))
      Stubs.no_pdf Stubs.ascii_only (Main.PostSummarize (with_concise b)) [].
Proof.
  intros b.
  apply (concise_is_the_default_style Config.defaults
           (Stubs.answers (lit "Short summary.")) Stubs.no_pdf
           Stubs.ascii_only b []).
  split; vm_compute; discriminate.
Defined.

Lemma rejections_of_an_upload_witness :
  exists detail,
    Main.content
      (fst (Main.app Config.defaults (Stubs.answers (lit "Short summary."))
              Stubs.no_pdf Stubs.ascii_only Stubs.blank_question []))
    = Main.DetailJSON detail /\
    In detail upload_rejections.
Proof.
  apply (rejections_of_an_upload Config.defaults
           (Stubs.answers (lit "Short summary.")) Stubs.no_pdf
           Stubs.ascii_only Stubs.blank_question []).
  reflexivity.
Defined.

Lemma is_summary_eta (resp : Main.response) :
  is_summary resp = true ->
  resp = {| Main.status_code := 200;
            Main.content := Main.SummarizeJSON (summary_of resp) |}.
Proof.
  destruct resp as [sc [r|r|detail|r|fields]]; unfold is_summary; cbn;
    intros H; apply andb_prop in H as [Hsc H]; try discriminate H.
  apply Z.eqb_eq in Hsc. subst sc. reflexivity.
Qed.

(** The document of three pages, uploaded as "REPORT.PDF". *)
Lemma summary_response_source_witness :
  let r :=
    summary_of
      (fst (Main.app Config.defaults (Stubs.answers (lit "Short summary."))
              (Stubs.opens three_pages) Stubs.ascii_only report_upload [])) in
  SummarizeResponse.source_type r = lit "pdf" /\
  exists text md,
    fst (PdfProcessor.extract_text_from_bytes (Stubs.opens three_pages) [] [])
    = Ok (text, md) /\
    SummarizeResponse.pdf_metadata r = Some md /\
    SummarizeResponse.original_length r = len text /\
    md !! "text_length" = Some (PyInt (SummarizeResponse.original_length r)).
Proof.
  intros r.
  apply (summary_response_source Config.defaults
           (Stubs.answers (lit "Short summary.")) (Stubs.opens three_pages)
           Stubs.ascii_only report_upload [] r).
  apply is_summary_eta. vm_compute. reflexivity.
Defined.

Lemma query_response_source_witness :
  let r :=
    {| QueryResponse.answer := lit "The unknown.";
       QueryResponse.confidence := None;
       QueryResponse.sources := Some [];
       QueryResponse.source_type := lit "text";
       QueryResponse.pdf_metadata := None |} in
  QueryResponse.confidence r = None /\
  match Stubs.scenario_e with
  | Main.PostQuery _ =>
      QueryResponse.source_type r = lit "text" /\
      QueryResponse.pdf_metadata r = None
  | Main.PostQueryPdf file _ _ =>
      QueryResponse.source_type r = lit "pdf" /\
      exists text,
        fst (PdfProcessor.extract_text_from_bytes Stubs.no_pdf
               (Main.read file) [])
        = Ok (text, default ∅ (QueryResponse.pdf_metadata r)) /\
        is_Some (QueryResponse.pdf_metadata r)
  | _ => False
  end.
Proof.
  intros r.
  apply (query_response_source Config.defaults
           (Stubs.answers (lit "The unknown.")) Stubs.no_pdf
           Stubs.ascii_only Stubs.scenario_e [] r).
  vm_compute. reflexivity.
Defined.

(** ** What reaches the endpoints *)

Section ValidatedRequests.

Variable settings : Config.Settings.
Variable generate_content : list N -> float -> Z -> attempt (list N).
Variable PdfReader : list Byte.byte -> attempt PdfProcessor.Reader.
Variable unicode_lower : N -> list N.

(** X21.  A summary request that passes validation is within the
    declared bounds and carries the values of the body: its text is the
    text of the body and has 1 to 50,000 characters; its maximum length,
    if any, is the number of the body and lies between 10 and 1000. *)
Theorem validated_summary_request_is_within_bounds b request :
  validate_summarize b = Valid request ->
  SummarizeBody.text b = Present (SummarizeRequest.text request) /\
  (1 <= len (SummarizeRequest.text request) <= 50000)%Z /\
  forall n, SummarizeRequest.max_length request = Some n ->
            SummarizeBody.max_length b = Present n /\
            (10 <= n <= 1000)%Z.
Proof.
  unfold validate_summarize.
  destruct (required_str_spec "text" 1 50000 (SummarizeBody.text b))
    as [[(s & Es & Hs) ->]|[_ ->]]; [|discriminate].
  destruct (optional_int_spec "max_length" 10 1000
              (SummarizeBody.max_length b)) as [[Hm ->]|[_ ->]];
    [|discriminate].
  cbn [List.app]. intros H. injection H as <-.
  cbn [SummarizeRequest.text SummarizeRequest.max_length].
  rewrite Es. cbn [value_of]. split; [reflexivity|]. split; [exact Hs|].
  intros n. unfold int_within in Hm.
  destruct (SummarizeBody.max_length b) as [| |m]; cbn [optional];
    intros E; try discriminate E.
  injection E as <-. split; [reflexivity|]. apply Hm. reflexivity.
Qed.

(** X22.  A query that passes validation carries the question and the
    context of the body, of 1 to 1,000 and of 1 to 50,000 characters. *)
Theorem validated_query_is_within_bounds b request :
  validate_query b = Valid request ->
  QueryBody.question b = Present (QueryRequest.question request) /\
  QueryBody.context b = Present (QueryRequest.context request) /\
  (1 <= len (QueryRequest.question request) <= 1000)%Z /\
  (1 <= len (QueryRequest.context request) <= 50000)%Z.
Proof.
  unfold validate_query.
  destruct (required_str_spec "question" 1 1000 (QueryBody.question b))
    as [[(q & Eq & Hq) ->]|[_ ->]]; [|discriminate].
  destruct (required_str_spec "context" 1 50000 (QueryBody.context b))
    as [[(c & Ec & Hc) ->]|[_ ->]]; [|discriminate].
  cbn [List.app]. intros H. injection H as <-.
  cbn [QueryRequest.question QueryRequest.context].
  rewrite Eq, Ec. cbn [value_of]. repeat split; assumption || lia.
Qed.

Lemma validate_summarize_text_length b request :
  validate_summarize b = Valid request ->
  (1 <= len (SummarizeRequest.text request))%Z.
Proof.
  unfold validate_summarize.
  destruct (required_str_spec "text" 1 50000 (SummarizeBody.text b))
    as [[(s & Es & Hs) ->]|[_ ->]]; [|discriminate].
  destruct (Models.optional_int _ _ _ _); [|discriminate].
  cbn [List.app]. intros H. injection H as <-.
  cbn [SummarizeRequest.text]. rewrite Es. cbn [value_of]. lia.
Qed.

Lemma len_not_empty (s : list N) : s <> [] -> (1 <= len s)%Z.
Proof.
  destruct s as [|c s]; [congruence|]. intros _. unfold len.
  change (length (c :: s)) with (S (length s)). lia.
Qed.

Lemma extraction_outcome_text_not_empty pdf_bytes text md :
  extraction_outcome PdfReader pdf_bytes = Ok (text, md) ->
  (1 <= len text)%Z.
Proof.
  unfold extraction_outcome, PdfProcessor.extract_text_body.
  destruct (PdfReader pdf_bytes) as [reader|msg]; [|discriminate].
  destruct (PdfProcessor.pages reader) as [reader_pages|msg]; [|discriminate].
  pose proof (page_loop_blocks 0 reader_pages []) as Hblocks.
  destruct (PdfProcessor.page_loop 0 reader_pages []) as [|block blocks];
    [discriminate|].
  intros H. injection H as <- _.
  symmetry in Hblocks. simpl in Hblocks.
  apply omap_block_of_head in Hblocks as [rest ->].
  apply (len_not_empty (join [10%N; 10%N] ((lit "--- Page " ++ rest) :: blocks))).
  exact (join_not_empty [10%N; 10%N] _ blocks rest eq_refl).
Qed.

(** X23.  The text behind a summary response is never empty: its
    [original_length] is at least 1 on both routes, so the compression
    ratio is always the quotient of the two lengths, and the branch of
    the code for a length of zero is never taken. *)
Theorem original_length_is_positive req log r :
  fst (Main.app settings generate_content PdfReader unicode_lower req log)
  = {| Main.status_code := 200; Main.content := Main.SummarizeJSON r |} ->
  (1 <= SummarizeResponse.original_length r)%Z /\
  SummarizeResponse.compression_ratio r
  = Main.truediv (SummarizeResponse.summary_length r)
                 (SummarizeResponse.original_length r).
Proof.
  assert (Hratio : forall text summary : list N,
             (1 <= len text)%Z ->
             (if (0 <? len text)%Z
              then Main.truediv (len summary) (len text)
              else 0%float)
             = Main.truediv (len summary) (len text)).
  { intros text summary H.
    destruct (Z.ltb_spec 0 (len text)); [reflexivity | lia]. }
  destruct req as [b|b|file max_length style|file question include_sources];
    cbn [Main.app];
    unfold Main.post_summarize, Main.post_query, Main.post_summarize_pdf,
      Main.post_query_pdf, Main.respond.
  - destruct (validate_summarize b) as [request|fields] eqn:V;
      [|discriminate].
    apply validate_summarize_text_length in V.
    rewrite summarize_text_eq. cbn zeta.
    destruct (completion_outcome _); cbn; intros H; [|discriminate].
    injection H as <-. cbn. split; [exact V|]. apply Hratio, V.
  - destruct (validate_query b) as [request|fields]; [|discriminate].
    rewrite query_document_eq. cbn zeta.
    destruct (completion_outcome _); discriminate.
  - rewrite summarize_pdf_eq. cbn zeta.
    destruct (negb (has_pdf_suffix _ _)); [discriminate|].
    destruct (negb (valid_pdf _ _)); [discriminate|].
    destruct (extraction_outcome _ _) as [[text pdf_metadata]|e] eqn:E;
      [|discriminate].
    apply extraction_outcome_text_not_empty in E.
    destruct (completion_outcome _); cbn; intros H; [|discriminate].
    injection H as <-. cbn. split; [exact E|]. apply Hratio, E.
  - rewrite query_pdf_eq. cbn zeta.
    destruct (negb (truthy _)); [discriminate|].
    destruct (negb (has_pdf_suffix _ _)); [discriminate|].
    destruct (negb (valid_pdf _ _)); [discriminate|].
    destruct (extraction_outcome _ _) as [[text pdf_metadata]|e];
      [|discriminate].
    destruct (completion_outcome _); discriminate.
Qed.

End ValidatedRequests.

Lemma original_length_is_positive_witness :
  let r :=
    {| SummarizeResponse.summary := lit "Short summary.";
       SummarizeResponse.original_length := 500;
       SummarizeResponse.summary_length := 14;
       SummarizeResponse.compression_ratio := 0x1.cac083126e979p-6%float;
       SummarizeResponse.source_type := lit "text";
       SummarizeResponse.pdf_metadata := None |} in
  (1 <= SummarizeResponse.original_length r)%Z /\
  SummarizeResponse.compression_ratio r
  = Main.truediv (SummarizeResponse.summary_length r)
                 (SummarizeResponse.original_length r).
Proof.
  intros r.
  apply (original_length_is_positive Config.defaults
           (Stubs.answers (lit "Short summary.")) Stubs.no_pdf
           Stubs.ascii_only Stubs.scenario_a [] r).
  vm_compute. reflexivity.
Defined.

Lemma validated_summary_request_is_within_bounds_witness :
  let b :=
    {| SummarizeBody.text := Present (lit "This is a test document.");
       SummarizeBody.max_length := Present 50%Z;
       SummarizeBody.style := Absent |} in
  let request :=
    {| SummarizeRequest.text := lit "This is a test document.";
       SummarizeRequest.max_length := Some 50%Z;
       SummarizeRequest.style := Some (lit "concise") |} in
  SummarizeBody.text b = Present (SummarizeRequest.text request) /\
  (1 <= len (SummarizeRequest.text request) <= 50000)%Z /\
  forall n, SummarizeRequest.max_length request = Some n ->
            SummarizeBody.max_length b = Present n /\
            (10 <= n <= 1000)%Z.
Proof.
  intros b request.
  apply (validated_summary_request_is_within_bounds b request).
  reflexivity.
Defined.

Lemma validated_query_is_within_bounds_witness :
  let b :=
    {| QueryBody.question := Present (lit "What is X?");
       QueryBody.context := Present (lit "X is the unknown.");
       QueryBody.include_sources := Null |} in
  let request :=
    {| QueryRequest.question := lit "What is X?";
       QueryRequest.context := lit "X is the unknown.";
       QueryRequest.include_sources := None |} in
  QueryBody.question b = Present (QueryRequest.question request) /\
  QueryBody.context b = Present (QueryRequest.context request) /\
  (1 <= len (QueryRequest.question request) <= 1000)%Z /\
  (1 <= len (QueryRequest.context request) <= 50000)%Z.
Proof.
  intros b request.
  apply (validated_query_is_within_bounds b request).
  reflexivity.
Defined.
